(** * The SQL dynamic-secret provider

    A shallow embedding of [SqlDatabaseProvider] (the SQL flavour of the
    dynamic-secret lease engine): credential generation, input validation,
    client construction, gateway routing and the four lease entry points
    [validateConnection], [create], [revoke] and [renew].

    The provider is orchestration code: it sequences calls into knex (the
    database client), handlebars (the template renderer), nanoid (the token
    generator), zod (the input schema) and the gateway service.  What those
    collaborators answer is an interface here ([Collaborators]); the
    provider's own control flow (closures, captured locals, [try]/[finally],
    early returns, the query loop) is written out in a monad of state and
    errors that also records, in order, every externally visible action of
    a call.

    A second, small part embeds [findLatestVersionMany] of the
    secret-version store ([SecretVersionDAL]). *)

From stdpp Require Import base strings gmap list.
From Stdlib Require Import ZArith Ascii.

Local Open Scope string_scope.
Local Open Scope Z_scope.
Local Open Scope list_scope.

(** ** JavaScript strings and truthiness *)

Module Js.

(** [Boolean(s)] for a value that is a string or [undefined]: only a
    present, non-empty string is truthy. *)
Definition truthy (v : option string) : bool :=
  match v with
  | Some s => negb (String.eqb s EmptyString)
  | None => false
  end.

(** [Boolean(s)] for a string, as used by [filter(Boolean)]. *)
Definition nonempty (s : string) : bool := negb (String.eqb s EmptyString).

(** [s.split(c)] for a one-character separator: the pieces between the
    separators, empty pieces kept, a string without separator giving a
    single piece. *)
Fixpoint split_aux (sep : ascii) (s : string) (cur : string) : list string :=
  match s with
  | EmptyString => [String.rev cur]
  | String c rest =>
      if Ascii.eqb c sep
      then String.rev cur :: split_aux sep rest EmptyString
      else split_aux sep rest (String c cur)
  end.

Definition split (sep : ascii) (s : string) : list string :=
  split_aux sep s EmptyString.

(** [c.toUpperCase()] on the ASCII range: the 26 lower-case letters move
    32 code points down, everything else stays. *)
Definition is_lower (c : ascii) : bool :=
  ((97 <=? nat_of_ascii c) && (nat_of_ascii c <=? 122))%nat.

Definition is_upper (c : ascii) : bool :=
  ((65 <=? nat_of_ascii c) && (nat_of_ascii c <=? 90))%nat.

Definition is_digit (c : ascii) : bool :=
  ((48 <=? nat_of_ascii c) && (nat_of_ascii c <=? 57))%nat.

Definition is_alnum (c : ascii) : bool :=
  is_lower c || is_upper c || is_digit c.

Definition upper_char (c : ascii) : ascii :=
  if is_lower c then ascii_of_nat (nat_of_ascii c - 32) else c.

Fixpoint toUpperCase (s : string) : string :=
  match s with
  | EmptyString => EmptyString
  | String c rest => String (upper_char c) (toUpperCase rest)
  end.

(** Every character of [s] satisfies [p]. *)
Fixpoint all_chars (p : ascii -> bool) (s : string) : bool :=
  match s with
  | EmptyString => true
  | String c rest => p c && all_chars p rest
  end.

(** [c] occurs in [s]. *)
Fixpoint mem_char (c : ascii) (s : string) : bool :=
  match s with
  | EmptyString => false
  | String d rest => Ascii.eqb c d || mem_char c rest
  end.

(** [s[i]], with a space standing in where JavaScript gives [undefined]. *)
Fixpoint char_at (s : string) (i : nat) : ascii :=
  match s, i with
  | EmptyString, _ => " "%char
  | String c _, O => c
  | String _ rest, S j => char_at rest j
  end.

(** [new Date(t).toISOString()] for an integral time value [t] in epoch
    milliseconds: the proleptic Gregorian date of [t], and no string at all
    (a RangeError) beyond the 8.64e15 ms a Date can hold. *)
Definition digit (n : Z) : ascii := ascii_of_nat (48 + Z.to_nat (n mod 10)).

Fixpoint digits (width : nat) (n : Z) : string :=
  match width with
  | O => EmptyString
  | S k => digits k (n / 10) +:+ String (digit n) EmptyString
  end.

Definition civil_from_days (days : Z) : Z * Z * Z :=
  let z := days + 719468 in
  let era := z / 146097 in
  let doe := z - era * 146097 in
  let yoe := (doe - doe / 1460 + doe / 36524 - doe / 146096) / 365 in
  let doy := doe - (365 * yoe + yoe / 4 - yoe / 100) in
  let mp := (5 * doy + 2) / 153 in
  let d := doy - (153 * mp + 2) / 5 + 1 in
  let m := if mp <? 10 then mp + 3 else mp - 9 in
  let y := yoe + era * 400 + (if m <=? 2 then 1 else 0) in
  (y, m, d).

Definition year_text (y : Z) : string :=
  if (0 <=? y) && (y <=? 9999) then digits 4 y
  else if y <? 0 then "-" +:+ digits 6 (- y)
  else "+" +:+ digits 6 y.

Definition toISOString (t : Z) : option string :=
  if Z.abs t <=? 8640000000000000 then
    let '(y, m, d) := civil_from_days (t / 86400000) in
    let ms := t mod 86400000 in
    Some (year_text y +:+ "-" +:+ digits 2 m +:+ "-" +:+ digits 2 d +:+ "T"
          +:+ digits 2 (ms / 3600000) +:+ ":" +:+ digits 2 (ms / 60000 mod 60)
          +:+ ":" +:+ digits 2 (ms / 1000 mod 60) +:+ "." +:+ digits 3 (ms mod 1000)
          +:+ "Z")
  else None.

End Js.

(** ** Credential generator *)

(** The entropy a call consumes: the [i]-th draw of the random source.
    nanoid reads random bytes and keeps those that index into the alphabet;
    the model hands it the draws directly and reduces them modulo the
    alphabet size. *)
Definition Entropy := nat -> nat.

(** nanoid's [customAlphabet(alphabet, defaultSize)]: a generator that,
    called with [size] (or with nothing, meaning [defaultSize]), returns
    [size] characters of [alphabet]. *)
Fixpoint pick (alphabet : string) (rnd : Entropy) (from n : nat) : string :=
  match n with
  | O => EmptyString
  | S k =>
      String (Js.char_at alphabet (rnd from mod String.length alphabet)%nat)
             (pick alphabet rnd (S from) k)
  end.

Definition customAlphabet (alphabet : string) (defaultSize : nat)
    (rnd : Entropy) (size : option nat) : string :=
  pick alphabet rnd 0 (default defaultSize size).

(** The dialects the provider tells apart; every other knex client name is
    carried verbatim. *)
Inductive SqlProviders :=
| Oracle
| MsSQL
| OtherDialect (client : string).

Definition is_oracle (p : SqlProviders) : bool :=
  match p with Oracle => true | _ => false end.

Definition is_mssql (p : SqlProviders) : bool :=
  match p with MsSQL => true | _ => false end.

Definition charset : string :=
  "abcdefghijklmnopqrstuvwxyzABCDEFGHIJKLMNOPQRSTUVWXYZ0123456789-_.~!*".

Definition generatePassword (rnd : Entropy) (provider : SqlProviders) : string :=
  let size := if is_oracle provider then 30%nat else 48%nat in
  customAlphabet charset 48 rnd (Some size).

(** Modelled from the spec: [alphaNumericNanoId] (the repository's
    [lib/nanoid], not among the sources) returns a token of the requested
    length over the alphanumeric characters. *)
Definition alphanumerics : string :=
  "0123456789abcdefghijklmnopqrstuvwxyzABCDEFGHIJKLMNOPQRSTUVWXYZ".

Definition alphaNumericNanoId (rnd : Entropy) (size : nat) : string :=
  pick alphanumerics rnd 0 size.

Definition generateUsername (rnd : Entropy) (provider : SqlProviders) : string :=
  if is_oracle provider
  then Js.toUpperCase (alphaNumericNanoId rnd 32)
  else alphaNumericNanoId rnd 32.

(** ** Data model *)

(** What can go wrong, named after where it comes from. *)
Inductive Error :=
| ValidationError            (* the schema or the host check refused the inputs *)
| TemplateError              (* handlebars could not render the template *)
| RangeError                 (* [new Date(t).toISOString()] on an invalid time *)
| GatewayError               (* relay lookup or tunnel set-up failed *)
| ConnectionError            (* no connection within the acquisition timeout *)
| ExecutionError (sql : string). (* the backend refused a statement *)

Inductive Result (A : Type) :=
| Ok (a : A)
| Err (e : Error).
Arguments Ok {A} a.
Arguments Err {A} e.

(** The validated provider configuration ([z.infer<typeof
    DynamicSecretSqlDBSchema>]); the fields are the ones the provider
    reads. *)
Module Inputs.
Record t := mk {
  client : SqlProviders;
  host : string;
  port : Z;
  database : string;
  username : string;
  password : string;
  ca : option string;
  creationStatement : string;
  revocationStatement : string;
  renewStatement : option string;
  projectGatewayId : option string
}.

(** [{ ...providerInputs, port, host }] *)
Definition with_endpoint (p : t) (h : string) (q : Z) : t :=
  mk (client p) h q (database p) (username p) (password p) (ca p)
     (creationStatement p) (revocationStatement p) (renewStatement p)
     (projectGatewayId p).
End Inputs.

(** The configuration object handed to [knex(...)]. *)
Module Knex.
Record Ssl := mkSsl {
  rejectUnauthorized : bool;
  ssl_ca : string
}.

(** The MsSQL driver options; [cryptoCredentialsDetails] is [{ ca }] or
    the empty object. *)
Record DriverOptions := mkOptions {
  trustServerCertificate : bool;
  cryptoCredentialsDetails : option string
}.

Record Connection := mkConnection {
  database : string;
  port : Z;
  host : string;
  user : string;
  password : string;
  ssl : option Ssl;
  options : option DriverOptions
}.

Record Config := mkConfig {
  client : SqlProviders;
  connection : Connection;
  acquireConnectionTimeout : Z
}.

(** A client handle: which [knex(...)] call made it, and with what. *)
Record Client := mkClient {
  id : nat;
  config : Config
}.
End Knex.

(** What the gateway service returns for a relay identifier, and what the
    provider passes on to the tunnel. *)
Module Gateway.
Record RelayDetails := mkRelay {
  relayAddress : string;
  relay_identityId : string;
  relay_orgId : string;
  certChain : string;
  certificate : string;
  privateKey : string
}.

Record TlsOptions := mkTls {
  tls_ca : string;
  cert : string;
  key : string
}.

Record Options := mkOptions {
  targetHost : string;
  targetPort : Z;
  relayHost : string;
  relayPort : option Z;
  identityId : string;
  orgId : string;
  tlsOptions : TlsOptions
}.
End Gateway.

(** Options of [handlebars.compile]; leaving them out means the defaults,
    where escaping is on. *)
Record CompileOptions := { noEscape : bool }.

Definition defaultCompileOptions : CompileOptions := {| noEscape := false |}.

(** The lease data [create] hands back. *)
Record LeaseData := { DB_USERNAME : string; DB_PASSWORD : string }.
Record Lease := { lease_entityId : string; data : LeaseData }.

(** [{ entityId }], what [revoke] and [renew] return. *)
Record Receipt := { entityId : string }.

(** Every externally visible action of a call, in the order it happens. *)
Inductive Event :=
| EvRender (template : string) (opts : CompileOptions) (context : gmap string string)
| EvRelayLookup (gatewayId : option string)
| EvTunnelOpen (opts : Gateway.Options) (localPort : option Z)
| EvTunnelClose (localPort : Z)
| EvClient (db : Knex.Client)
| EvAcquire (id : nat) (connected : bool)
| EvBegin (id : nat)
| EvRaw (id : nat) (sql : string) (succeeded : bool)
| EvCommit (id : nat)
| EvRollback (id : nat)
| EvDestroy (id : nat).

(** ** The collaborators

    Everything the provider calls but does not define.  [Raw] is the
    untyped input ([unknown]); [Backend] is whatever the database holds.
    A collaborator that throws returns [None]. *)
Class Collaborators (Raw Backend : Type) := {
  (** zod: [DynamicSecretSqlDBSchema.parseAsync] *)
  parseAsync : Raw -> option Inputs.t;
  (** which host literals the host check counts as private or loopback *)
  internalHost : string -> bool;
  (** handlebars: [compile(template, options)(context)] *)
  compile : string -> CompileOptions -> gmap string string -> option string;
  (** [Number(s)], [None] when the result is not an integer *)
  Number : option string -> option Z;
  (** the random source nanoid reads: its [i]-th draw *)
  random : Entropy;
  (** the gateway service's relay directory *)
  fnGetGatewayClientTls : option string -> option Gateway.RelayDetails;
  (** the tunnel's set-up: the ephemeral local port it listens on *)
  listen : Gateway.Options -> option Z;
  (** knex's pool: does a connection come up within the timeout *)
  acquire : Knex.Config -> bool;
  (** the backend's reaction to one statement on one connection *)
  execute : Knex.Connection -> string -> Backend -> option Backend
}.

(** ** The monad of a call

    A call threads the locals its closures capture ([L]) and the world:
    the backend's committed state, the uncommitted state of an open
    transaction, how many random draws have been used and how many clients
    have been made so far.
    It returns a value or throws, and leaves a trace of events. *)
Record World (Backend : Type) := mkWorld {
  committed : Backend;
  pending : option Backend;
  drawn : nat;
  nextClient : nat
}.
Arguments mkWorld {Backend}.
Arguments committed {Backend}.
Arguments pending {Backend}.
Arguments drawn {Backend}.
Arguments nextClient {Backend}.

Record Run (Backend L A : Type) := mkRun {
  result : Result A;
  locals : L;
  world : World Backend;
  trace : list Event
}.
Arguments mkRun {Backend L A}.
Arguments result {Backend L A}.
Arguments locals {Backend L A}.
Arguments world {Backend L A}.
Arguments trace {Backend L A}.

Definition M (Backend L A : Type) := L -> World Backend -> Run Backend L A.

Section Monad.
Context {Backend L : Type}.

Definition ret {A} (a : A) : M Backend L A :=
  fun l w => mkRun (Ok a) l w [].

Definition throw {A} (e : Error) : M Backend L A :=
  fun l w => mkRun (Err e) l w [].

Definition bind {A B} (m : M Backend L A) (k : A -> M Backend L B) : M Backend L B :=
  fun l w =>
    match m l w with
    | mkRun (Ok a) l1 w1 t1 =>
        match k a l1 w1 with
        | mkRun r l2 w2 t2 => mkRun r l2 w2 (t1 ++ t2)
        end
    | mkRun (Err e) l1 w1 t1 => mkRun (Err e) l1 w1 t1
    end.

(** [try { body } finally { cleanup }]: the cleanup runs whatever the body
    did; the body's outcome stands unless the cleanup itself throws. *)
Definition try_finally {A} (body : M Backend L A) (cleanup : M Backend L unit)
    : M Backend L A :=
  fun l w =>
    match body l w with
    | mkRun r l1 w1 t1 =>
        match cleanup l1 w1 with
        | mkRun (Ok _) l2 w2 t2 => mkRun r l2 w2 (t1 ++ t2)
        | mkRun (Err e) l2 w2 t2 => mkRun (Err e) l2 w2 (t1 ++ t2)
        end
    end.

Definition emit (e : Event) : M Backend L unit :=
  fun l w => mkRun (Ok tt) l w [e].

Definition get_local : M Backend L L :=
  fun l w => mkRun (Ok l) l w [].

Definition set_local (v : L) : M Backend L unit :=
  fun _ w => mkRun (Ok tt) v w [].

Definition get_world : M Backend L (World Backend) :=
  fun l w => mkRun (Ok w) l w [].

Definition put_world (w : World Backend) : M Backend L unit :=
  fun l _ => mkRun (Ok tt) l w [].

(** A collaborator's answer, with the error to throw when it has none. *)
Definition expect {A} (e : Error) (o : option A) : M Backend L A :=
  match o with
  | Some a => ret a
  | None => throw e
  end.

End Monad.

Declare Scope call_scope.
Delimit Scope call_scope with call.
Notation "x <- m ;; k" := (bind m (fun x => k))
  (at level 100, m at next level, right associativity) : call_scope.
Notation "m ;;; k" := (bind m (fun _ => k))
  (at level 100, right associativity) : call_scope.
Local Open Scope call_scope.

(** [for (const x of xs) await body(x)]: stops at the first throw. *)
Fixpoint forEach {Backend L A} (xs : list A) (body : A -> M Backend L unit)
    : M Backend L unit :=
  match xs with
  | [] => ret tt
  | x :: rest => body x ;;; forEach rest body
  end.

(** ** The provider *)

Definition EXTERNAL_REQUEST_TIMEOUT : Z := 10 * 1000.

(** The string inside a value known to be truthy. *)
Definition str (v : option string) : string := default EmptyString v.

Section Provider.
Context {Raw Backend : Type} `{Collaborators Raw Backend}.

(** *** knex *)

(** [knex(config)]: a new client; nothing is connected yet. *)
Definition knex {L} (cfg : Knex.Config) : M Backend L Knex.Client :=
  fun l w =>
    let db := Knex.mkClient (nextClient w) cfg in
    mkRun (Ok db) l
          (mkWorld (committed w) (pending w) (drawn w) (S (nextClient w)))
          [EvClient db].

(** The pool hands out a connection or gives up after the timeout. *)
Definition connect {L} (db : Knex.Client) : M Backend L unit :=
  if acquire (Knex.config db)
  then emit (EvAcquire (Knex.id db) true)
  else (emit (EvAcquire (Knex.id db) false) ;;; throw ConnectionError).

(** [db.raw(sql)] outside a transaction: the statement commits on its own. *)
Definition raw {L} (db : Knex.Client) (sql : string) : M Backend L unit :=
  connect db ;;;
  w <- get_world ;;
  match execute (Knex.connection (Knex.config db)) sql (committed w) with
  | Some b =>
      put_world (mkWorld b (pending w) (drawn w) (nextClient w)) ;;;
      emit (EvRaw (Knex.id db) sql true)
  | None =>
      emit (EvRaw (Knex.id db) sql false) ;;; throw (ExecutionError sql)
  end.

(** [tx.raw(sql)]: the statement works on the transaction's pending state. *)
Definition tx_raw {L} (tx : Knex.Client) (sql : string) : M Backend L unit :=
  w <- get_world ;;
  match pending w with
  | None => throw (ExecutionError sql)
  | Some b =>
      match execute (Knex.connection (Knex.config tx)) sql b with
      | Some b' =>
          put_world (mkWorld (committed w) (Some b') (drawn w) (nextClient w)) ;;;
          emit (EvRaw (Knex.id tx) sql true)
      | None =>
          emit (EvRaw (Knex.id tx) sql false) ;;; throw (ExecutionError sql)
      end
  end.

(** [db.transaction(handler)]: begin, run the handler, commit when it
    resolves, roll back and rethrow when it rejects. *)
Definition transaction {L} (db : Knex.Client)
    (handler : Knex.Client -> M Backend L unit) : M Backend L unit :=
  connect db ;;;
  w <- get_world ;;
  put_world (mkWorld (committed w) (Some (committed w)) (drawn w) (nextClient w)) ;;;
  emit (EvBegin (Knex.id db)) ;;;
  fun l w1 =>
    match handler db l w1 with
    | mkRun (Ok _) l2 w2 t =>
        mkRun (Ok tt) l2
              (mkWorld (default (committed w2) (pending w2)) None
                       (drawn w2) (nextClient w2))
              (t ++ [EvCommit (Knex.id db)])
    | mkRun (Err e) l2 w2 t =>
        mkRun (Err e) l2
              (mkWorld (committed w2) None (drawn w2) (nextClient w2))
              (t ++ [EvRollback (Knex.id db)])
    end.

(** [db.destroy()] *)
Definition destroy {L} (db : Knex.Client) : M Backend L unit :=
  emit (EvDestroy (Knex.id db)).

(** *** handlebars, Date, nanoid *)

Definition render {L} (template : string) (opts : CompileOptions)
    (context : gmap string string) : M Backend L string :=
  emit (EvRender template opts context) ;;;
  expect TemplateError (compile template opts context).

Definition isoString {L} (t : Z) : M Backend L string :=
  expect RangeError (Js.toISOString t).

(** Run a generator on the unused part of the random source and count the
    [n] draws it takes. *)
Definition sample {L} (n : nat) (gen : Entropy -> string) : M Backend L string :=
  fun l w =>
    mkRun (Ok (gen (fun i => random (drawn w + i)%nat))) l
          (mkWorld (committed w) (pending w) (drawn w + n)%nat (nextClient w))
          [].

(** *** The gateway *)

(** Modelled from the spec: [withGatewayProxy] (the repository's
    [lib/gateway], not among the sources) opens a local listening port
    tunnelled to the target, fails with a gateway error before anything
    else when the relay cannot be reached, invokes the callback with the
    local port, and tears the tunnel down when the callback returns or
    throws. *)
Definition withGatewayProxy {L} (callback : Z -> M Backend L unit)
    (opts : Gateway.Options) : M Backend L unit :=
  match listen opts with
  | None => emit (EvTunnelOpen opts None) ;;; throw GatewayError
  | Some localPort =>
      emit (EvTunnelOpen opts (Some localPort)) ;;;
      try_finally (callback localPort) (emit (EvTunnelClose localPort))
  end.

(** Modelled from the spec: [verifyHostInputValidity] (the repository's
    [dynamic-secret-fns], not among the sources) lets every host through
    when a relay identifier is configured and refuses a private or
    loopback host literal when none is. *)
Definition verifyHostInputValidity {L} (host : string) (isGateway : bool)
    : M Backend L unit :=
  if isGateway then ret tt
  else if internalHost host then throw ValidationError
  else ret tt.

(** *** The provider's functions *)

Definition validateProviderInputs {L} (inputs : Raw) : M Backend L Inputs.t :=
  providerInputs <- expect ValidationError (parseAsync inputs) ;;
  verifyHostInputValidity (Inputs.host providerInputs)
    (Js.truthy (Inputs.projectGatewayId providerInputs)) ;;;
  ret providerInputs.

(** The configuration [$getClient] builds. *)
Definition clientConfig (providerInputs : Inputs.t) : Knex.Config :=
  let ssl :=
    if Js.truthy (Inputs.ca providerInputs)
    then Some (Knex.mkSsl false (str (Inputs.ca providerInputs)))
    else None in
  let isMsSQLClient := is_mssql (Inputs.client providerInputs) in
  Knex.mkConfig (Inputs.client providerInputs)
    (Knex.mkConnection
       (Inputs.database providerInputs)
       (Inputs.port providerInputs)
       (Inputs.host providerInputs)
       (Inputs.username providerInputs)
       (Inputs.password providerInputs)
       ssl
       (if isMsSQLClient
        then Some (Knex.mkOptions
                     (negb (Js.truthy (Inputs.ca providerInputs)))
                     (if Js.truthy (Inputs.ca providerInputs)
                      then Some (str (Inputs.ca providerInputs))
                      else None))
        else None))
    EXTERNAL_REQUEST_TIMEOUT.

Definition getClient {L} (providerInputs : Inputs.t) : M Backend L Knex.Client :=
  knex (clientConfig providerInputs).

(** The options [gatewayProxyWrapper] hands to the tunnel: the configured
    target, and the relay's address split at the colon. *)
Definition gatewayOptions (providerInputs : Inputs.t)
    (relayDetails : Gateway.RelayDetails) : Gateway.Options :=
  let parts := Js.split ":" (Gateway.relayAddress relayDetails) in
  let relayHost := str (parts !! 0%nat) in
  let relayPort := parts !! 1%nat in
  Gateway.mkOptions
    (Inputs.host providerInputs)
    (Inputs.port providerInputs)
    relayHost
    (Number relayPort)
    (Gateway.relay_identityId relayDetails)
    (Gateway.relay_orgId relayDetails)
    (Gateway.mkTls (Gateway.certChain relayDetails)
                   (Gateway.certificate relayDetails)
                   (Gateway.privateKey relayDetails)).

Definition gatewayProxyWrapper {L} (providerInputs : Inputs.t)
    (gatewayCallback : string -> Z -> M Backend L unit) : M Backend L unit :=
  emit (EvRelayLookup (Inputs.projectGatewayId providerInputs)) ;;;
  relayDetails <- expect GatewayError
                    (fnGetGatewayClientTls (Inputs.projectGatewayId providerInputs)) ;;
  withGatewayProxy
    (fun port => gatewayCallback "localhost" port)
    (gatewayOptions providerInputs relayDetails).

(** The routing every entry point ends with. *)
Definition route {L} (providerInputs : Inputs.t)
    (gatewayCallback : string -> Z -> M Backend L unit) : M Backend L unit :=
  if Js.truthy (Inputs.projectGatewayId providerInputs)
  then gatewayProxyWrapper providerInputs gatewayCallback
  else gatewayCallback (Inputs.host providerInputs) (Inputs.port providerInputs).

(** The statements of a rendered template: split on [;], empty pieces
    dropped. *)
Definition statements (rendered : string) : list string :=
  List.filter Js.nonempty (Js.split ";" rendered).

(** [validateConnection]: the captured local is [isConnected]. *)
Definition validateConnection_callback (providerInputs : Inputs.t)
    (host : string) (port : Z) : M Backend bool unit :=
  db <- getClient (Inputs.with_endpoint providerInputs host port) ;;
  let testStatement :=
    if is_oracle (Inputs.client providerInputs)
    then "SELECT 1 FROM DUAL" else "SELECT 1" in
  raw db testStatement ;;;
  set_local true ;;;
  destroy db.

Definition validateConnection (inputs : Raw) : M Backend bool bool :=
  providerInputs <- validateProviderInputs inputs ;;
  set_local false ;;;
  route providerInputs (validateConnection_callback providerInputs) ;;;
  get_local.

Definition create_context (username password expiration database : string)
    : gmap string string :=
  <["username" := username]>
    (<["password" := password]>
       (<["expiration" := expiration]>
          (<["database" := database]> ∅))).

Definition create_callback (providerInputs : Inputs.t) (expireAt : Z)
    (username password : string) (host : string) (port : Z) : M Backend unit unit :=
  db <- getClient (Inputs.with_endpoint providerInputs host port) ;;
  try_finally
    (let database := Inputs.database providerInputs in
     expiration <- isoString expireAt ;;
     creationStatement <-
       render (Inputs.creationStatement providerInputs) {| noEscape := true |}
              (create_context username password expiration database) ;;
     let queries := statements creationStatement in
     transaction db (fun tx => forEach queries (fun query => tx_raw tx query)))
    (destroy db).

Definition create (inputs : Raw) (expireAt : Z) : M Backend unit Lease :=
  providerInputs <- validateProviderInputs inputs ;;
  username <- sample 32 (fun rnd => generateUsername rnd (Inputs.client providerInputs)) ;;
  password <- sample (if is_oracle (Inputs.client providerInputs) then 30 else 48)
                     (fun rnd => generatePassword rnd (Inputs.client providerInputs)) ;;
  route providerInputs (create_callback providerInputs expireAt username password) ;;;
  ret {| lease_entityId := username;
         data := {| DB_USERNAME := username; DB_PASSWORD := password |} |}.

Definition revoke_context (username database : string) : gmap string string :=
  <["username" := username]> (<["database" := database]> ∅).

Definition revoke_callback (providerInputs : Inputs.t) (username database : string)
    (host : string) (port : Z) : M Backend unit unit :=
  db <- getClient (Inputs.with_endpoint providerInputs host port) ;;
  try_finally
    (revokeStatement <-
       render (Inputs.revocationStatement providerInputs) defaultCompileOptions
              (revoke_context username database) ;;
     let queries := statements revokeStatement in
     transaction db (fun tx => forEach queries (fun query => tx_raw tx query)))
    (destroy db).

Definition revoke (inputs : Raw) (entityId : string) : M Backend unit Receipt :=
  providerInputs <- validateProviderInputs inputs ;;
  let username := entityId in
  let database := Inputs.database providerInputs in
  route providerInputs (revoke_callback providerInputs username database) ;;;
  ret {| entityId := username |}.

Definition renew_context (username expiration database : string)
    : gmap string string :=
  <["username" := username]>
    (<["expiration" := expiration]> (<["database" := database]> ∅)).

Definition renew_callback (providerInputs : Inputs.t) (entityId : string)
    (expireAt : Z) (host : string) (port : Z) : M Backend unit unit :=
  db <- getClient (Inputs.with_endpoint providerInputs host port) ;;
  expiration <- isoString expireAt ;;
  let database := Inputs.database providerInputs in
  renewStatement <-
    render (str (Inputs.renewStatement providerInputs)) defaultCompileOptions
           (renew_context entityId expiration database) ;;
  try_finally
    (if Js.nonempty renewStatement
     then
       let queries := statements renewStatement in
       transaction db (fun tx => forEach queries (fun query => tx_raw tx query))
     else ret tt)
    (destroy db).

Definition renew (inputs : Raw) (entityId : string) (expireAt : Z)
    : M Backend unit Receipt :=
  providerInputs <- validateProviderInputs inputs ;;
  if negb (Js.truthy (Inputs.renewStatement providerInputs))
  then ret {| entityId := entityId |}
  else
    route providerInputs (renew_callback providerInputs entityId expireAt) ;;;
    ret {| entityId := entityId |}.

End Provider.

(** ** A model of the renderer, and a small world to run the provider in *)

Module Handlebars.

(** [Utils.escapeExpression]: the seven characters handlebars replaces by
    HTML entities. *)
Definition escapeChar (c : ascii) : string :=
  if Ascii.eqb c "&" then "&amp;"
  else if Ascii.eqb c "<" then "&lt;"
  else if Ascii.eqb c ">" then "&gt;"
  else if Ascii.eqb c (ascii_of_nat 34) then "&quot;"
  else if Ascii.eqb c "'" then "&#x27;"
  else if Ascii.eqb c "`" then "&#x60;"
  else if Ascii.eqb c "=" then "&#x3D;"
  else String c EmptyString.

Fixpoint escapeExpression (s : string) : string :=
  match s with
  | EmptyString => EmptyString
  | String c rest => escapeChar c +:+ escapeExpression rest
  end.

(** A template is text interleaved with variables; [{{name}}] is subject to
    escaping, [{{{name}}}] and [{{&name}}] never are. *)
Inductive Piece :=
| Content (text : string)
| Mustache (name : string) (escaped : bool).

Inductive Mode := InText | InDouble | InAmpersand | InTriple.

Definition is_space (c : ascii) : bool := Ascii.eqb c " ".

Definition is_id_char (c : ascii) : bool :=
  Js.is_alnum c || Ascii.eqb c "_".

Fixpoint ltrim (s : string) : string :=
  match s with
  | String c rest => if is_space c then ltrim rest else s
  | EmptyString => EmptyString
  end.

Definition trim (s : string) : string :=
  String.rev (ltrim (String.rev (ltrim s))).

(** The variable named between the braces, when it is a plain identifier. *)
Definition identifier (body : string) : option string :=
  let name := trim body in
  if Js.nonempty name && Js.all_chars is_id_char name then Some name else None.

Definition mustache (body : string) (escaped : bool) (rest : option (list Piece))
    : option (list Piece) :=
  match identifier body, rest with
  | Some name, Some pieces => Some (Mustache name escaped :: pieces)
  | _, _ => None
  end.

Definition content (text : string) (rest : option (list Piece))
    : option (list Piece) :=
  match rest with
  | Some pieces => Some (if Js.nonempty text then Content text :: pieces else pieces)
  | None => None
  end.

(** The tokenizer; [acc] holds the characters of the current piece, newest
    first.  A template that ends inside braces does not parse. *)
Fixpoint scan (s : string) (mode : Mode) (acc : string) : option (list Piece) :=
  match s with
  | EmptyString =>
      match mode with
      | InText => content (String.rev acc) (Some [])
      | _ => None
      end
  | String c rest =>
      match mode with
      | InText =>
          match rest with
          | String c2 rest2 =>
              if Ascii.eqb c "{" && Ascii.eqb c2 "{" then
                match rest2 with
                | String c3 rest3 =>
                    if Ascii.eqb c3 "{"
                    then content (String.rev acc) (scan rest3 InTriple EmptyString)
                    else if Ascii.eqb c3 "&"
                    then content (String.rev acc) (scan rest3 InAmpersand EmptyString)
                    else content (String.rev acc) (scan rest2 InDouble EmptyString)
                | EmptyString => None
                end
              else scan rest InText (String c acc)
          | EmptyString => scan rest InText (String c acc)
          end
      | InDouble | InAmpersand =>
          match rest with
          | String c2 rest2 =>
              if Ascii.eqb c "}" && Ascii.eqb c2 "}"
              then mustache (String.rev acc)
                            (match mode with InDouble => true | _ => false end)
                            (scan rest2 InText EmptyString)
              else scan rest mode (String c acc)
          | EmptyString => None
          end
      | InTriple =>
          match rest with
          | String c2 (String c3 rest3) =>
              if Ascii.eqb c "}" && Ascii.eqb c2 "}" && Ascii.eqb c3 "}"
              then mustache (String.rev acc) false (scan rest3 InText EmptyString)
              else scan rest mode (String c acc)
          | _ => None
          end
      end
  end.

Definition parse (template : string) : option (list Piece) :=
  scan template InText EmptyString.

(** The value of a variable; one the context lacks renders as nothing. *)
Definition lookupValue (context : gmap string string) (name : string) : string :=
  default EmptyString (context !! name).

Fixpoint expand (escape : bool) (context : gmap string string)
    (pieces : list Piece) : string :=
  match pieces with
  | [] => EmptyString
  | Content text :: rest => text +:+ expand escape context rest
  | Mustache name escaped :: rest =>
      (if escape && escaped
       then escapeExpression (lookupValue context name)
       else lookupValue context name)
      +:+ expand escape context rest
  end.

(** [handlebars.compile(template, options)(context)] *)
Definition compile (template : string) (opts : CompileOptions)
    (context : gmap string string) : option string :=
  match parse template with
  | Some pieces => Some (expand (negb (noEscape opts)) context pieces)
  | None => None
  end.


End Handlebars.

Module Toy.

(** The backend is the list of statements it has applied; it refuses a
    statement that begins with [refused]. *)
Definition internal (host : string) : bool :=
  String.eqb host "localhost" || String.eqb host "127.0.0.1"
  || String.prefix "10." host || String.prefix "192.168." host.

Fixpoint decimal_aux (s : string) (acc : Z) : option Z :=
  match s with
  | EmptyString => Some acc
  | String c rest =>
      if Js.is_digit c
      then decimal_aux rest (10 * acc + Z.of_nat (nat_of_ascii c) - 48)
      else None
  end.

Definition decimal (s : option string) : option Z :=
  match s with
  | Some (String c rest) => decimal_aux (String c rest) 0
  | _ => None
  end.

Definition relay : Gateway.RelayDetails :=
  Gateway.mkRelay "relay.example.com:8443" "identity-1" "org-1"
                  "chain" "certificate" "key".

Definition rnd : Entropy := fun i => (7 * i + 3)%nat.

Definition collaborators (up : bool) (refused : string)
    : Collaborators (option Inputs.t) (list string) := {|
  parseAsync := fun inputs => inputs;
  internalHost := internal;
  compile := Handlebars.compile;
  Number := decimal;
  random := rnd;
  fnGetGatewayClientTls := fun gatewayId =>
    match gatewayId with
    | Some g => if String.eqb g "gw-1" then Some relay else None
    | None => None
    end;
  listen := fun _ => Some 41000;
  acquire := fun _ => up;
  execute := fun _ sql (applied : list string) =>
    if String.prefix refused sql then None else Some (applied ++ [sql])
|}.

Definition start : World (list string) := mkWorld [] None 0 0.

Definition inputs (host : string) (gatewayId renewal : option string) : Inputs.t :=
  Inputs.mk (OtherDialect "postgres") host 5432 "appdb" "admin" "admin-secret" None
    "CREATE USER {{username}} PASSWORD '{{password}}';GRANT ALL ON {{database}} TO {{username}}"
    "DROP USER {{username}}"
    renewal gatewayId.

(** Inputs for the scenarios below: a public host reached directly, a
    private host reached directly and through the relay, and renewal
    templates, one of them with a brace missing. *)
Definition direct : option Inputs.t :=
  Some (inputs "db.example.com" None None).

Definition internal_direct : option Inputs.t :=
  Some (inputs "10.0.0.5" None None).

Definition internal_tunnelled : option Inputs.t :=
  Some (inputs "10.0.0.5" (Some "gw-1") None).

Definition renewable : option Inputs.t :=
  Some (inputs "db.example.com" None
          (Some "ALTER USER {{username}} VALID UNTIL '{{expiration}}'")).

Definition broken_renewal : option Inputs.t :=
  Some (inputs "db.example.com" None
          (Some "ALTER USER {{username} VALID UNTIL '{{expiration}}'")).

(** A backend that is up and refuses nothing the scenarios send, one that
    refuses the grant, and one that refuses the probe. *)
Definition healthy : Collaborators (option Inputs.t) (list string) :=
  collaborators true "BOOM".


Definition refusing_probe : Collaborators (option Inputs.t) (list string) :=
  collaborators true "SELECT".

End Toy.

(** ** Vocabulary for traces *)

(** Events that touch the backend or the relay. *)
Definition backend_event (e : Event) : bool :=
  match e with
  | EvClient _ | EvAcquire _ _ | EvBegin _ | EvRaw _ _ _
  | EvCommit _ | EvRollback _ | EvDestroy _ => true
  | _ => false
  end.

Definition gateway_event (e : Event) : bool :=
  match e with
  | EvRelayLookup _ | EvTunnelOpen _ _ | EvTunnelClose _ => true
  | _ => false
  end.

(** Events that make or destroy a client. *)
Definition session_event (e : Event) : bool :=
  match e with
  | EvClient _ | EvDestroy _ => true
  | _ => false
  end.

(** Events of a client at work: acquisition and the statement protocol. *)
Definition protocol_event (e : Event) : bool :=
  match e with
  | EvAcquire _ _ | EvBegin _ | EvRaw _ _ _ | EvCommit _ | EvRollback _ => true
  | _ => false
  end.

(** Events of the statement protocol: begin, statement, commit, rollback. *)
Definition statement_event (e : Event) : bool :=
  match e with
  | EvBegin _ | EvRaw _ _ _ | EvCommit _ | EvRollback _ => true
  | _ => false
  end.


(** A rendering, if the event is one, binds exactly the variables [keys]. *)
Definition renders_with (keys : gset string) (e : Event) : Prop :=
  match e with
  | EvRender _ _ context => dom context = keys
  | _ => True
  end.


(** The statements of a batch the backend applies in order, the first one
    it refuses (if any), and the state reached. *)
Fixpoint batch {Raw Backend : Type} `{Collaborators Raw Backend}
    (conn : Knex.Connection) (queries : list string) (b : Backend)
    : list string * option string * Backend :=
  match queries with
  | [] => ([], None, b)
  | q :: rest =>
      match execute conn q b with
      | Some b' =>
          let '(applied, refused, final) := batch conn rest b' in
          (q :: applied, refused, final)
      | None => ([], Some q, b)
      end
  end.

(** What [validateProviderInputs] decides, as a value. *)
Definition validation {Raw Backend : Type} `{Collaborators Raw Backend}
    (inputs : Raw) : Result Inputs.t :=
  match parseAsync inputs with
  | None => Err ValidationError
  | Some providerInputs =>
      if negb (Js.truthy (Inputs.projectGatewayId providerInputs))
         && internalHost (Inputs.host providerInputs)
      then Err ValidationError
      else Ok providerInputs
  end.

(** The client a callback makes for the endpoint it is given, and the world
    once it is made. *)
Definition clientFor {Backend : Type} (pi : Inputs.t) (host : string) (port : Z)
    (w : World Backend) : Knex.Client :=
  Knex.mkClient (nextClient w) (clientConfig (Inputs.with_endpoint pi host port)).

Definition afterClient {Backend : Type} (w : World Backend) : World Backend :=
  mkWorld (committed w) (pending w) (drawn w) (S (nextClient w)).

(** The credential pair [create] draws in world [w], and the world once it
    is drawn. *)
Definition issuedUsername {Raw Backend : Type} `{Collaborators Raw Backend}
    (pi : Inputs.t) (w : World Backend) : string :=
  generateUsername (fun i => random (drawn w + i)%nat) (Inputs.client pi).

Definition issuedPassword {Raw Backend : Type} `{Collaborators Raw Backend}
    (pi : Inputs.t) (w : World Backend) : string :=
  generatePassword (fun i => random (drawn w + 32 + i)%nat) (Inputs.client pi).

Definition afterDraws {Backend : Type} (pi : Inputs.t) (w : World Backend)
    : World Backend :=
  mkWorld (committed w) (pending w)
          (drawn w + 32 + (if is_oracle (Inputs.client pi) then 30 else 48))%nat
          (nextClient w).


(** A rendering, if the event is one, does not bind [name]. *)
Definition leaves_unbound (name : string) (e : Event) : Prop :=
  match e with
  | EvRender _ _ context => context !! name = None
  | _ => True
  end.

(** A rendering, if the event is one, binds [name] to [value]. *)
Definition binds (name value : string) (e : Event) : Prop :=
  match e with
  | EvRender _ _ context => context !! name = Some value
  | _ => True
  end.

(** ** Vocabulary for strings and clients *)

(** [s] with every occurrence of [c] taken out. *)
Fixpoint delete_char (c : ascii) (s : string) : string :=
  match s with
  | EmptyString => EmptyString
  | String d rest =>
      if Ascii.eqb d c then delete_char c rest else String d (delete_char c rest)
  end.

(** The client an event of the protocol goes through. *)
Definition event_client (e : Event) : option nat :=
  match e with
  | EvAcquire id _ | EvBegin id | EvRaw id _ _ | EvCommit id | EvRollback id => Some id
  | _ => None
  end.

(** The probe [validateConnection] sends to a dialect. *)
Definition probe (provider : SqlProviders) : string :=
  if is_oracle provider then "SELECT 1 FROM DUAL" else "SELECT 1".

(** Characters that end a statement, a quoted literal or an identifier, or
    that the renderer would replace: semicolon, the quotes, backslash, blank,
    and the seven characters of [escapeChar]. *)
Definition hazards : string :=
  String (ascii_of_nat 34) ";'\ &<>`=".

(** ** The secret-version store

    [secretVersionV2BridgeDALFactory]: [findLatestVersionMany], which turns
    the rows of a query into a record keyed by secret.  The query itself is
    knex's; what it returns or throws is a parameter. *)
Module SecretVersionDAL.

(** Who runs a query: the caller's transaction, the read replica, or the
    primary. *)
Inductive Executor :=
| Transaction (tx : nat)
| ReplicaNode
| Primary.

(** [new DatabaseError({ error, name })] *)
Inductive Failure (Cause : Type) :=
| DatabaseError (name : string) (error : Cause).
Arguments DatabaseError {Cause} name error.

Section Store.
Variables Doc Cause : Type.

(** The nullable [secretId] column of a row. *)
Variable secretId : Doc -> option string.

(** The latest-version query for a folder and a list of secret ids, with
    the executor of the query and the executor of its sub-select: its rows,
    or what it throws. *)
Variable latestVersions :
  Executor -> Executor -> string -> list string -> Cause + list Doc.

(** [curr.secretId || EmptyString] *)
Definition key (curr : Doc) : string :=
  if Js.truthy (secretId curr) then str (secretId curr) else EmptyString.

(** [docs.reduce((prev, curr) => ({ ...prev, [key]: curr }), {})] *)
Definition byKey (docs : list Doc) : gmap string Doc :=
  fold_left (fun prev curr => <[key curr := curr]> prev) docs ∅.

Definition findLatestVersionMany (folderId : string) (secretIds : list string)
    (tx : option nat) : Failure Cause + gmap string Doc :=
  if (length secretIds =? 0)%nat then inr ∅
  else
    match latestVersions
            (match tx with Some t => Transaction t | None => ReplicaNode end)
            (match tx with Some t => Transaction t | None => Primary end)
            folderId secretIds
    with
    | inr docs => inr (byKey docs)
    | inl error => inl (DatabaseError "FindLatestVersinMany" error)
    end.

End Store.

Arguments key {Doc} secretId curr.
Arguments byKey {Doc} secretId docs.
Arguments findLatestVersionMany {Doc Cause} secretId latestVersions
  folderId secretIds tx.

End SecretVersionDAL.

(** ** More scenarios for the small world *)
Module Cases.

(** A relay identifier the directory does not know. *)
Definition unknown_relay : option Inputs.t :=
  Some (Toy.inputs "10.0.0.5" (Some "gw-2") None).

(** A renewal template whose only variable is not in the context. *)
Definition silent_renewal : Inputs.t :=
  Toy.inputs "db.example.com" None (Some "{{nothing}}").

(** A creation template that is nothing but a semicolon. *)
Definition no_statement : Inputs.t :=
  Inputs.mk (OtherDialect "postgres") "db.example.com" 5432 "appdb" "admin"
    "admin-secret" None ";" "DROP USER {{username}}" None None.

(** Backends that refuse the revocation and the renewal, and one that cannot
    be reached. *)
Definition refusing_drop : Collaborators (option Inputs.t) (list string) :=
  Toy.collaborators true "DROP".

Definition refusing_alter : Collaborators (option Inputs.t) (list string) :=
  Toy.collaborators true "ALTER".

Definition unreachable : Collaborators (option Inputs.t) (list string) :=
  Toy.collaborators false "BOOM".

(** Rows of the secret-version store: a [secretId] and a version. *)
Definition rows : list (option string * Z) :=
  [(Some "db-password", 3); (None, 1); (Some "api-key", 7)].

(** A store that answers every query with [rows], and one that is down. *)
Definition answering (outer inner : SecretVersionDAL.Executor) (folderId : string)
    (secretIds : list string) : string + list (option string * Z) :=
  inr rows.

Definition down (outer inner : SecretVersionDAL.Executor) (folderId : string)
    (secretIds : list string) : string + list (option string * Z) :=
  inl "connection refused".

End Cases.

(** ** Proof tools *)

(** The closed forms below name these definitions; [simpl] leaves them
    folded. *)
Arguments Js.toISOString : simpl never.
Arguments create_context : simpl never.
Arguments revoke_context : simpl never.
Arguments renew_context : simpl never.
Arguments statements : simpl never.
Arguments clientConfig : simpl never.
Arguments gatewayOptions : simpl never.
Arguments transaction : simpl never.
Arguments compile : simpl never.

(** Name the parts of every run a goal is stuck on. *)
Ltac destruct_runs :=
  repeat match goal with
    | |- context [match ?r with mkRun _ _ _ _ => _ end] =>
        lazymatch r with
        | context [match _ with mkRun _ _ _ _ => _ end] => fail
        | _ =>
            let res := fresh "res" in
            destruct r as [res ? ? ?]; try destruct res; simpl
        end
    end.

(** Settle a goal about an explicit trace: break it up, run through the
    events a hypothesis ranges over, and compare constructors. *)
Ltac trace_facts :=
  cbn; repeat (split || intro);
  repeat match goal with
    | H : exists _, _ |- _ => destruct H
    | H : _ /\ _ |- _ => destruct H
    | H : _ \/ _ |- _ => destruct H
    | H : False |- _ => destruct H
    end;
  simplify_eq; try congruence; eauto 10.

(** * Properties *)

(** ** The credential generator *)

Lemma all_chars_char_at (p : ascii -> bool) (s : string) (i : nat) :
  Js.all_chars p s = true -> (i < String.length s)%nat -> p (Js.char_at s i) = true.
Proof.
  revert i. induction s as [|c s IH]; intros i Hall Hi; simpl in *.
  - lia.
  - apply andb_true_iff in Hall as [Hc Hs].
    destruct i as [|j]; [exact Hc|]. apply IH; [exact Hs | lia].
Qed.

Lemma pick_length (alphabet : string) (rnd : Entropy) (from n : nat) :
  String.length (pick alphabet rnd from n) = n.
Proof.
  revert from. induction n as [|k IH]; intros from; simpl; [reflexivity|].
  now rewrite IH.
Qed.

Lemma pick_all_chars (p : ascii -> bool) (alphabet : string) (rnd : Entropy)
    (from n : nat) :
  Js.all_chars p alphabet = true -> alphabet <> EmptyString ->
  Js.all_chars p (pick alphabet rnd from n) = true.
Proof.
  intros Hall Hne. revert from.
  induction n as [|k IH]; intros from; simpl; [reflexivity|].
  rewrite IH, andb_true_r. apply all_chars_char_at; [exact Hall|].
  apply Nat.mod_upper_bound. destruct alphabet; [congruence | simpl; lia].
Qed.

Lemma toUpperCase_length (s : string) :
  String.length (Js.toUpperCase s) = String.length s.
Proof. induction s as [|c s IH]; simpl; congruence. Qed.

Lemma upper_char_alnum (c : ascii) :
  Js.is_alnum c = true ->
  Js.is_upper (Js.upper_char c) || Js.is_digit (Js.upper_char c) = true.
Proof. destruct c as [[] [] [] [] [] [] [] []]; vm_compute; congruence. Qed.

Lemma toUpperCase_alnum (s : string) :
  Js.all_chars Js.is_alnum s = true ->
  Js.all_chars (fun c => Js.is_upper c || Js.is_digit c) (Js.toUpperCase s) = true.
Proof.
  induction s as [|c s IH]; simpl; [reflexivity|].
  intros [Hc Hs]%andb_true_iff.
  now rewrite upper_char_alnum, IH.
Qed.

Lemma upper_or_digit_alnum (s : string) :
  Js.all_chars (fun c => Js.is_upper c || Js.is_digit c) s = true ->
  Js.all_chars Js.is_alnum s = true.
Proof.
  induction s as [|c s IH]; simpl; [reflexivity|].
  intros [Hc Hs]%andb_true_iff. rewrite IH by exact Hs.
  unfold Js.is_alnum. apply orb_true_iff in Hc as [-> | ->];
    now rewrite ?orb_true_r.
Qed.

(** C4, as the spec words it, needs the password alphabet to have 69
    characters; the alphabet of [generatePassword] has 68. *)
Lemma charset_is_not_69 : String.length charset <> 69%nat.
Proof. vm_compute. congruence. Qed.

(** C4 (amended): the password alphabet is a fixed set of 68 distinct
    characters; for every dialect and every random source the password is
    drawn from it and is 48 characters long, 30 for Oracle; the username is
    32 alphanumeric characters, and for Oracle none of them is a lower-case
    letter. *)
Theorem generated_credentials_shape :
  String.length charset = 68%nat
  /\ NoDup (String.list_ascii_of_string charset)
  /\ forall (rnd : Entropy) (provider : SqlProviders),
       Js.all_chars (fun c => Js.mem_char c charset) (generatePassword rnd provider) = true
       /\ String.length (generatePassword rnd provider)
          = (if is_oracle provider then 30%nat else 48%nat)
       /\ String.length (generateUsername rnd provider) = 32%nat
       /\ Js.all_chars Js.is_alnum (generateUsername rnd provider) = true
       /\ Js.all_chars (fun c => Js.is_upper c || Js.is_digit c)
            (generateUsername rnd Oracle) = true.
Proof.
  split; [reflexivity|]. split.
  { apply NoDup_ListNoDup, (List.NoDup_count_occ ascii_dec).
    intros c. destruct c as [[] [] [] [] [] [] [] []]; vm_compute; lia. }
  intros rnd provider.
  assert (Hu : Js.all_chars Js.is_alnum (alphaNumericNanoId rnd 32) = true)
    by (apply pick_all_chars; [reflexivity | discriminate]).
  repeat split.
  - apply pick_all_chars; [reflexivity | discriminate].
  - unfold generatePassword, customAlphabet. simpl default. apply pick_length.
  - unfold generateUsername. destruct (is_oracle provider);
      rewrite ?toUpperCase_length; apply pick_length.
  - unfold generateUsername. destruct (is_oracle provider); [|exact Hu].
    now apply upper_or_digit_alnum, toUpperCase_alnum.
  - now apply toUpperCase_alnum.
Qed.

(** ** Calls and their traces *)

Section Reasoning.
Context {Raw Backend : Type} `{Collaborators Raw Backend}.

Lemma batch_splits (conn : Knex.Connection) (queries : list string) (b : Backend) :
  forall applied refused final,
    batch conn queries b = (applied, refused, final) ->
    match refused with
    | None => queries = applied
    | Some q => exists rest, queries = applied ++ q :: rest
    end.
Proof.
  revert b. induction queries as [|q rest IH]; intros b applied refused final; simpl.
  - intros [= <- <- <-]. reflexivity.
  - destruct (execute conn q b) as [b'|] eqn:E.
    + destruct (batch conn rest b') as [[applied' refused'] final'] eqn:B.
      intros [= <- <- <-]. specialize (IH _ _ _ _ B).
      destruct refused' as [q'|].
      * destruct IH as [rest' ->]. now exists rest'.
      * now subst.
    + intros [= <- <- <-]. now exists rest.
Qed.

(** The query loop inside a transaction, in closed form. *)
Lemma forEach_tx_raw_run {L} (tx : Knex.Client) (queries : list string)
    (l : L) (w : World Backend) (b : Backend) :
  pending w = Some b ->
  forEach queries (fun query => tx_raw tx query) l w =
    let '(applied, refused, final) :=
      batch (Knex.connection (Knex.config tx)) queries b in
    mkRun (match refused with None => Ok tt | Some q => Err (ExecutionError q) end)
          l
          (mkWorld (committed w) (Some final) (drawn w) (nextClient w))
          (map (fun q => EvRaw (Knex.id tx) q true) applied
           ++ match refused with
              | None => []
              | Some q => [EvRaw (Knex.id tx) q false]
              end).
Proof.
  revert w b. induction queries as [|q rest IH]; intros w b Hp; simpl.
  - destruct w; simpl in *; subst; reflexivity.
  - unfold bind at 1. unfold tx_raw at 1. unfold bind at 1. simpl.
    rewrite Hp.
    destruct (execute (Knex.connection (Knex.config tx)) q b) as [b'|] eqn:E; simpl.
    + rewrite (IH _ b') by reflexivity. simpl.
      destruct (batch (Knex.connection (Knex.config tx)) rest b')
        as [[applied refused] final]; reflexivity.
    + destruct w; simpl in *; subst; reflexivity.
Qed.

(** A transaction around the query loop, in closed form. *)
Lemma transaction_run {L} (db : Knex.Client) (queries : list string)
    (l : L) (w : World Backend) :
  transaction db (fun tx => forEach queries (fun query => tx_raw tx query)) l w =
    if acquire (Knex.config db) then
      let '(applied, refused, final) :=
        batch (Knex.connection (Knex.config db)) queries (committed w) in
      match refused with
      | None =>
          mkRun (Ok tt) l (mkWorld final None (drawn w) (nextClient w))
                (EvAcquire (Knex.id db) true :: EvBegin (Knex.id db)
                 :: map (fun q => EvRaw (Knex.id db) q true) applied
                 ++ [EvCommit (Knex.id db)])
      | Some q =>
          mkRun (Err (ExecutionError q)) l
                (mkWorld (committed w) None (drawn w) (nextClient w))
                (EvAcquire (Knex.id db) true :: EvBegin (Knex.id db)
                 :: map (fun q => EvRaw (Knex.id db) q true) applied
                 ++ [EvRaw (Knex.id db) q false; EvRollback (Knex.id db)])
      end
    else mkRun (Err ConnectionError) l w [EvAcquire (Knex.id db) false].
Proof.
  unfold transaction, connect.
  destruct (acquire (Knex.config db)); [|reflexivity].
  unfold bind; simpl.
  rewrite (forEach_tx_raw_run db queries l _ (committed w)) by reflexivity.
  destruct (batch (Knex.connection (Knex.config db)) queries (committed w))
    as [[applied refused] final].
  destruct refused as [q|]; simpl; rewrite <- ?app_assoc; reflexivity.
Qed.


Lemma validateProviderInputs_run {L} (inputs : Raw) (l : L) (w : World Backend) :
  validateProviderInputs inputs l w = mkRun (validation inputs) l w [].
Proof.
  unfold validateProviderInputs, validation, verifyHostInputValidity, bind, expect.
  destruct (parseAsync inputs) as [pi|]; simpl; [|reflexivity].
  destruct (Js.truthy (Inputs.projectGatewayId pi)); simpl; [reflexivity|].
  destruct (internalHost (Inputs.host pi)); reflexivity.
Qed.

(** Routing, in closed form: the callback's own run, wrapped in the relay
    lookup and the tunnel when a relay identifier is configured. *)
Lemma route_run {L} (pi : Inputs.t) (cb : string -> Z -> M Backend L unit)
    (l : L) (w : World Backend) :
  route pi cb l w =
    if Js.truthy (Inputs.projectGatewayId pi) then
      match fnGetGatewayClientTls (Inputs.projectGatewayId pi) with
      | None =>
          mkRun (Err GatewayError) l w [EvRelayLookup (Inputs.projectGatewayId pi)]
      | Some relayDetails =>
          let opts := gatewayOptions pi relayDetails in
          match listen opts with
          | None =>
              mkRun (Err GatewayError) l w
                    [EvRelayLookup (Inputs.projectGatewayId pi); EvTunnelOpen opts None]
          | Some localPort =>
              let r := cb "localhost" localPort l w in
              mkRun (result r) (locals r) (world r)
                    (EvRelayLookup (Inputs.projectGatewayId pi)
                     :: EvTunnelOpen opts (Some localPort)
                     :: trace r ++ [EvTunnelClose localPort])
          end
      end
    else cb (Inputs.host pi) (Inputs.port pi) l w.
Proof.
  unfold route. destruct (Js.truthy (Inputs.projectGatewayId pi)); [|reflexivity].
  unfold gatewayProxyWrapper, withGatewayProxy, bind, expect; simpl.
  destruct (fnGetGatewayClientTls (Inputs.projectGatewayId pi)) as [rd|]; simpl;
    [|reflexivity].
  destruct (listen (gatewayOptions pi rd)) as [port|]; simpl; [|reflexivity].
  unfold try_finally, bind; simpl. destruct_runs; reflexivity.
Qed.

Lemma validateConnection_callback_run (pi : Inputs.t) (host : string) (port : Z)
    (l : bool) (w : World Backend) :
  validateConnection_callback pi host port l w =
    let db := clientFor pi host port w in
    let testStatement :=
      if is_oracle (Inputs.client pi) then "SELECT 1 FROM DUAL" else "SELECT 1" in
    if acquire (Knex.config db) then
      match execute (Knex.connection (Knex.config db)) testStatement (committed w) with
      | Some b =>
          mkRun (Ok tt) true
                (mkWorld b (pending w) (drawn w) (S (nextClient w)))
                [EvClient db; EvAcquire (Knex.id db) true;
                 EvRaw (Knex.id db) testStatement true; EvDestroy (Knex.id db)]
      | None =>
          mkRun (Err (ExecutionError testStatement)) l (afterClient w)
                [EvClient db; EvAcquire (Knex.id db) true;
                 EvRaw (Knex.id db) testStatement false]
      end
    else
      mkRun (Err ConnectionError) l (afterClient w)
            [EvClient db; EvAcquire (Knex.id db) false].
Proof.
  unfold validateConnection_callback, getClient, knex, raw, connect, destroy,
    clientFor, afterClient, bind; simpl.
  destruct (acquire _); simpl; [|reflexivity].
  destruct (execute _ _ _); reflexivity.
Qed.

Lemma create_callback_run (pi : Inputs.t) (expireAt : Z) (username password : string)
    (host : string) (port : Z) (l : unit) (w : World Backend) :
  create_callback pi expireAt username password host port l w =
    let db := clientFor pi host port w in
    match Js.toISOString expireAt with
    | None => mkRun (Err RangeError) l (afterClient w) [EvClient db; EvDestroy (Knex.id db)]
    | Some expiration =>
        let context := create_context username password expiration (Inputs.database pi) in
        let rendering :=
          EvRender (Inputs.creationStatement pi) {| noEscape := true |} context in
        match compile (Inputs.creationStatement pi) {| noEscape := true |} context with
        | None =>
            mkRun (Err TemplateError) l (afterClient w)
                  [EvClient db; rendering; EvDestroy (Knex.id db)]
        | Some rendered =>
            let r := transaction db
                       (fun tx => forEach (statements rendered)
                                          (fun query => tx_raw tx query))
                       l (afterClient w) in
            mkRun (result r) (locals r) (world r)
                  (EvClient db :: rendering :: trace r ++ [EvDestroy (Knex.id db)])
        end
    end.
Proof.
  unfold create_callback, getClient, knex, isoString, render, destroy,
    try_finally, bind, expect, emit, clientFor, afterClient; simpl.
  destruct (Js.toISOString expireAt) as [iso|]; simpl; [|reflexivity].
  destruct (compile _ _ _) as [rendered|]; simpl; [|reflexivity].
  destruct_runs; reflexivity.
Qed.

Lemma revoke_callback_run (pi : Inputs.t) (username database : string)
    (host : string) (port : Z) (l : unit) (w : World Backend) :
  revoke_callback pi username database host port l w =
    let db := clientFor pi host port w in
    let context := revoke_context username database in
    let rendering :=
      EvRender (Inputs.revocationStatement pi) defaultCompileOptions context in
    match compile (Inputs.revocationStatement pi) defaultCompileOptions context with
    | None =>
        mkRun (Err TemplateError) l (afterClient w)
              [EvClient db; rendering; EvDestroy (Knex.id db)]
    | Some rendered =>
        let r := transaction db
                   (fun tx => forEach (statements rendered)
                                      (fun query => tx_raw tx query))
                   l (afterClient w) in
        mkRun (result r) (locals r) (world r)
              (EvClient db :: rendering :: trace r ++ [EvDestroy (Knex.id db)])
    end.
Proof.
  unfold revoke_callback, getClient, knex, render, destroy,
    try_finally, bind, expect, emit, clientFor, afterClient; simpl.
  destruct (compile _ _ _) as [rendered|]; simpl; [|reflexivity].
  destruct_runs; reflexivity.
Qed.

Lemma renew_callback_run (pi : Inputs.t) (entityId : string) (expireAt : Z)
    (host : string) (port : Z) (l : unit) (w : World Backend) :
  renew_callback pi entityId expireAt host port l w =
    let db := clientFor pi host port w in
    match Js.toISOString expireAt with
    | None => mkRun (Err RangeError) l (afterClient w) [EvClient db]
    | Some expiration =>
        let context := renew_context entityId expiration (Inputs.database pi) in
        let rendering :=
          EvRender (str (Inputs.renewStatement pi)) defaultCompileOptions context in
        match compile (str (Inputs.renewStatement pi)) defaultCompileOptions context with
        | None => mkRun (Err TemplateError) l (afterClient w) [EvClient db; rendering]
        | Some rendered =>
            if Js.nonempty rendered then
              let r := transaction db
                         (fun tx => forEach (statements rendered)
                                            (fun query => tx_raw tx query))
                         l (afterClient w) in
              mkRun (result r) (locals r) (world r)
                    (EvClient db :: rendering :: trace r ++ [EvDestroy (Knex.id db)])
            else
              mkRun (Ok tt) l (afterClient w)
                    [EvClient db; rendering; EvDestroy (Knex.id db)]
        end
    end.
Proof.
  unfold renew_callback, getClient, knex, isoString, render, destroy,
    try_finally, bind, expect, emit, clientFor, afterClient; simpl.
  destruct (Js.toISOString expireAt) as [iso|]; simpl; [|reflexivity].
  destruct (compile _ _ _) as [rendered|]; simpl; [|reflexivity].
  destruct (Js.nonempty rendered); simpl; [|reflexivity].
  destruct_runs; reflexivity.
Qed.


(** The entry points, in closed form: validation, then the routed callback. *)
Lemma validateConnection_run (inputs : Raw) (l : bool) (w : World Backend) :
  validateConnection inputs l w =
    match validation inputs with
    | Err e => mkRun (Err e) l w []
    | Ok pi =>
        let r := route pi (validateConnection_callback pi) false w in
        mkRun (match result r with Ok _ => Ok (locals r) | Err e => Err e end)
              (locals r) (world r) (trace r)
    end.
Proof.
  unfold validateConnection, bind. rewrite validateProviderInputs_run.
  destruct (validation inputs) as [pi|e]; [|reflexivity].
  unfold set_local, get_local; simpl. destruct_runs; now rewrite ?app_nil_r.
Qed.

Lemma create_run (inputs : Raw) (expireAt : Z) (l : unit) (w : World Backend) :
  create inputs expireAt l w =
    match validation inputs with
    | Err e => mkRun (Err e) l w []
    | Ok pi =>
        let username := issuedUsername pi w in
        let password := issuedPassword pi w in
        let r := route pi (create_callback pi expireAt username password)
                       l (afterDraws pi w) in
        mkRun (match result r with
               | Ok _ => Ok {| lease_entityId := username;
                               data := {| DB_USERNAME := username;
                                          DB_PASSWORD := password |} |}
               | Err e => Err e
               end)
              (locals r) (world r) (trace r)
    end.
Proof.
  unfold create, bind. rewrite validateProviderInputs_run.
  destruct (validation inputs) as [pi|e]; [|reflexivity].
  unfold sample, ret, issuedUsername, issuedPassword, afterDraws; simpl.
  destruct_runs; now rewrite ?app_nil_r.
Qed.

Lemma revoke_run (inputs : Raw) (entityId : string) (l : unit) (w : World Backend) :
  revoke inputs entityId l w =
    match validation inputs with
    | Err e => mkRun (Err e) l w []
    | Ok pi =>
        let r := route pi (revoke_callback pi entityId (Inputs.database pi)) l w in
        mkRun (match result r with
               | Ok _ => Ok {| entityId := entityId |}
               | Err e => Err e
               end)
              (locals r) (world r) (trace r)
    end.
Proof.
  unfold revoke, bind. rewrite validateProviderInputs_run.
  destruct (validation inputs) as [pi|e]; [|reflexivity].
  unfold ret; simpl. destruct_runs; now rewrite ?app_nil_r.
Qed.

Lemma renew_run (inputs : Raw) (entityId : string) (expireAt : Z)
    (l : unit) (w : World Backend) :
  renew inputs entityId expireAt l w =
    match validation inputs with
    | Err e => mkRun (Err e) l w []
    | Ok pi =>
        if Js.truthy (Inputs.renewStatement pi) then
          let r := route pi (renew_callback pi entityId expireAt) l w in
          mkRun (match result r with
                 | Ok _ => Ok {| entityId := entityId |}
                 | Err e => Err e
                 end)
                (locals r) (world r) (trace r)
        else mkRun (Ok {| entityId := entityId |}) l w []
    end.
Proof.
  unfold renew, bind. rewrite validateProviderInputs_run.
  destruct (validation inputs) as [pi|e]; [|reflexivity].
  destruct (Js.truthy (Inputs.renewStatement pi)); [|reflexivity].
  unfold ret; simpl. destruct_runs; now rewrite ?app_nil_r.
Qed.


(** Routing adds gateway events around the callback's run and nothing
    else; it fails on its own only with a gateway error, before the
    callback has run. *)
Lemma route_outcomes {L} (pi : Inputs.t) (cb : string -> Z -> M Backend L unit)
    (l : L) (w : World Backend) :
  (result (route pi cb l w) = Err GatewayError
   /\ locals (route pi cb l w) = l
   /\ world (route pi cb l w) = w
   /\ Forall (fun e => gateway_event e = true) (trace (route pi cb l w)))
  \/ exists host port pre post,
       Forall (fun e => gateway_event e = true) pre
       /\ Forall (fun e => gateway_event e = true) post
       /\ trace (route pi cb l w) = pre ++ trace (cb host port l w) ++ post
       /\ result (route pi cb l w) = result (cb host port l w)
       /\ locals (route pi cb l w) = locals (cb host port l w)
       /\ world (route pi cb l w) = world (cb host port l w).
Proof.
  rewrite route_run.
  destruct (Js.truthy (Inputs.projectGatewayId pi)).
  - destruct (fnGetGatewayClientTls (Inputs.projectGatewayId pi)) as [rd|]; simpl.
    + destruct (listen (gatewayOptions pi rd)) as [port|]; simpl.
      * right. exists "localhost", port,
          [EvRelayLookup (Inputs.projectGatewayId pi);
           EvTunnelOpen (gatewayOptions pi rd) (Some port)],
          [EvTunnelClose port].
        repeat split; repeat constructor.
      * left. repeat split; repeat constructor.
    + left. repeat split; repeat constructor.
  - right. exists (Inputs.host pi), (Inputs.port pi), [], [].
    rewrite app_nil_r. repeat split; constructor.
Qed.

Lemma filter_gateway (f : Event -> bool) (t : list Event) :
  (forall e, gateway_event e = true -> f e = false) ->
  Forall (fun e => gateway_event e = true) t -> List.filter f t = [].
Proof.
  intros Hf. induction 1 as [|e t He _ IH]; simpl; [reflexivity|].
  now rewrite (Hf e He).
Qed.

Lemma filter_transaction {L} (f : Event -> bool) (db : Knex.Client)
    (queries : list string) (l : L) (w : World Backend) :
  (forall e, protocol_event e = true -> f e = false) ->
  List.filter f
    (trace (transaction db (fun tx => forEach queries (fun query => tx_raw tx query)) l w))
  = [].
Proof.
  intros Hf. rewrite transaction_run.
  assert (Hraws : forall qs,
    List.filter f (map (fun q => EvRaw (Knex.id db) q true) qs) = []).
  { induction qs as [|q qs IH]; simpl; [reflexivity|]. now rewrite Hf. }
  destruct (acquire _); [|simpl; now rewrite Hf].
  destruct (batch _ _ _) as [[applied [q|]] final]; simpl;
    rewrite !Hf, List.filter_app, Hraws by reflexivity; simpl;
    now rewrite !Hf.
Qed.

Lemma filter_statement_raws (id : nat) (qs : list string) :
  List.filter statement_event (map (fun q => EvRaw id q true) qs)
  = map (fun q => EvRaw id q true) qs.
Proof. induction qs as [|q qs IH]; simpl; congruence. Qed.


(** ** Sessions *)

(** Gateway events are no session events, and neither are the events of a
    client at work. *)
Lemma session_not_gateway (e : Event) :
  gateway_event e = true -> session_event e = false.
Proof. now destruct e. Qed.

Lemma session_not_protocol (e : Event) :
  protocol_event e = true -> session_event e = false.
Proof. now destruct e. Qed.

(** Session events of a routed callback are those of the callback. *)
Lemma route_sessions {L} (pi : Inputs.t) (cb : string -> Z -> M Backend L unit)
    (l : L) (w : World Backend) :
  List.filter session_event (trace (route pi cb l w)) = []
  \/ exists host port,
       List.filter session_event (trace (route pi cb l w))
       = List.filter session_event (trace (cb host port l w)).
Proof.
  destruct (route_outcomes pi cb l w)
    as [(_ & _ & _ & Ht) | (host & port & pre & post & Hpre & Hpost & Ht & _)].
  - left. apply filter_gateway; [exact session_not_gateway | exact Ht].
  - right. exists host, port. rewrite Ht, !List.filter_app.
    rewrite (filter_gateway _ pre session_not_gateway Hpre),
      (filter_gateway _ post session_not_gateway Hpost).
    now rewrite app_nil_r.
Qed.

(** [create] destroys the one client it makes, on every outcome. *)
Lemma create_releases_its_session (inputs : Raw) (expireAt : Z) (w : World Backend) :
  List.filter session_event (trace (create inputs expireAt tt w)) = []
  \/ exists db,
       List.filter session_event (trace (create inputs expireAt tt w))
       = [EvClient db; EvDestroy (Knex.id db)].
Proof.
  rewrite create_run. destruct (validation inputs) as [pi|e]; [|now left].
  cbn [trace].
  destruct (route_sessions pi
              (create_callback pi expireAt (issuedUsername pi w) (issuedPassword pi w))
              tt (afterDraws pi w)) as [-> | (host & port & ->)]; [now left|].
  right. exists (clientFor pi host port (afterDraws pi w)).
  rewrite create_callback_run. cbv zeta.
  destruct (Js.toISOString expireAt); [|reflexivity].
  destruct (compile _ _ _); [|reflexivity].
  cbn [trace List.filter session_event].
  now rewrite List.filter_app, (filter_transaction _ _ _ _ _ session_not_protocol).
Qed.

(** So does [revoke]. *)
Lemma revoke_releases_its_session (inputs : Raw) (entityId : string)
    (w : World Backend) :
  List.filter session_event (trace (revoke inputs entityId tt w)) = []
  \/ exists db,
       List.filter session_event (trace (revoke inputs entityId tt w))
       = [EvClient db; EvDestroy (Knex.id db)].
Proof.
  rewrite revoke_run. destruct (validation inputs) as [pi|e]; [|now left].
  cbn [trace].
  destruct (route_sessions pi (revoke_callback pi entityId (Inputs.database pi)) tt w)
    as [-> | (host & port & ->)]; [now left|].
  right. exists (clientFor pi host port w).
  rewrite revoke_callback_run. cbv zeta.
  destruct (compile _ _ _); [|reflexivity].
  cbn [trace List.filter session_event].
  now rewrite List.filter_app, (filter_transaction _ _ _ _ _ session_not_protocol).
Qed.

(** [renew] does once the expiration is formatted and the template is
    rendered; a failure of either leaves the client it has made behind. *)
Lemma renew_sessions (inputs : Raw) (entityId : string) (expireAt : Z)
    (w : World Backend) :
  List.filter session_event (trace (renew inputs entityId expireAt tt w)) = []
  \/ exists db,
       List.filter session_event (trace (renew inputs entityId expireAt tt w))
       = match result (renew inputs entityId expireAt tt w) with
         | Err RangeError | Err TemplateError => [EvClient db]
         | _ => [EvClient db; EvDestroy (Knex.id db)]
         end.
Proof.
  rewrite renew_run. destruct (validation inputs) as [pi|e]; [|now left].
  destruct (Js.truthy (Inputs.renewStatement pi)); [|now left].
  cbv zeta. cbn [trace result].
  destruct (route_outcomes pi (renew_callback pi entityId expireAt) tt w)
    as [(_ & _ & _ & Ht) | (host & port & pre & post & Hpre & Hpost & Ht & Hr & _)].
  { left. apply filter_gateway; [exact session_not_gateway | exact Ht]. }
  right. exists (clientFor pi host port w).
  rewrite Ht, Hr, !List.filter_app.
  rewrite (filter_gateway _ pre session_not_gateway Hpre),
    (filter_gateway _ post session_not_gateway Hpost), app_nil_r.
  cbn [app]. rewrite renew_callback_run. cbv zeta.
  destruct (Js.toISOString expireAt); [|reflexivity].
  destruct (compile _ _ _); [|reflexivity].
  destruct (Js.nonempty _); [|reflexivity].
  cbn [trace result List.filter session_event].
  rewrite List.filter_app, (filter_transaction _ _ _ _ _ session_not_protocol).
  rewrite transaction_run.
  destruct (acquire _); [|reflexivity].
  destruct (batch _ _ _) as [[applied [q|]] final]; reflexivity.
Qed.

(** [validateConnection] destroys its client only when the probe went
    through. *)
Lemma validateConnection_sessions (inputs : Raw) (l : bool) (w : World Backend) :
  List.filter session_event (trace (validateConnection inputs l w)) = []
  \/ exists db,
       List.filter session_event (trace (validateConnection inputs l w))
       = match result (validateConnection inputs l w) with
         | Ok _ => [EvClient db; EvDestroy (Knex.id db)]
         | Err _ => [EvClient db]
         end.
Proof.
  rewrite validateConnection_run. destruct (validation inputs) as [pi|e]; [|now left].
  cbv zeta. cbn [trace result].
  destruct (route_outcomes pi (validateConnection_callback pi) false w)
    as [(_ & _ & _ & Ht) | (host & port & pre & post & Hpre & Hpost & Ht & Hr & _)].
  { left. apply filter_gateway; [exact session_not_gateway | exact Ht]. }
  right. exists (clientFor pi host port w).
  rewrite Ht, Hr, !List.filter_app.
  rewrite (filter_gateway _ pre session_not_gateway Hpre),
    (filter_gateway _ post session_not_gateway Hpost), app_nil_r.
  cbn [app]. rewrite validateConnection_callback_run. cbv zeta.
  destruct (acquire _); [|reflexivity].
  destruct (execute _ _ _); reflexivity.
Qed.

(** ** The connection check *)

(** C3 (amended): [validateConnection] never returns [false].  It returns
    [true] exactly when the liveness probe went through; when the
    connection came up and the probe was refused, the probe's error
    propagates; so do a connection failure and a validation failure, the
    latter before anything was attempted. *)
Theorem validateConnection_true_or_throws
    (inputs : Raw) (l : bool) (w : World Backend) :
  result (validateConnection inputs l w) <> Ok false
  /\ (result (validateConnection inputs l w) = Ok true
      <-> exists id sql, In (EvRaw id sql true) (trace (validateConnection inputs l w)))
  /\ (forall id sql,
        In (EvRaw id sql false) (trace (validateConnection inputs l w)) ->
        In (EvAcquire id true) (trace (validateConnection inputs l w))
        /\ result (validateConnection inputs l w) = Err (ExecutionError sql))
  /\ (forall id,
        In (EvAcquire id false) (trace (validateConnection inputs l w)) ->
        result (validateConnection inputs l w) = Err ConnectionError)
  /\ (forall e,
        validation inputs = Err e ->
        result (validateConnection inputs l w) = Err e
        /\ trace (validateConnection inputs l w) = []).
Proof.
  rewrite validateConnection_run.
  destruct (validation inputs) as [pi|e] eqn:V.
  2: { trace_facts. }
  cbv zeta. rewrite route_run.
  assert (Hcb : forall host port,
    let r := validateConnection_callback pi host port false w in
    (result r = Ok tt /\ locals r = true
     /\ exists db sql, trace r = [EvClient db; EvAcquire (Knex.id db) true;
                                 EvRaw (Knex.id db) sql true; EvDestroy (Knex.id db)])
    \/ (exists db sql, result r = Err (ExecutionError sql)
        /\ trace r = [EvClient db; EvAcquire (Knex.id db) true;
                      EvRaw (Knex.id db) sql false])
    \/ (exists db, result r = Err ConnectionError
        /\ trace r = [EvClient db; EvAcquire (Knex.id db) false])).
  { intros host port. rewrite validateConnection_callback_run. cbv zeta.
    destruct (acquire _); [|right; right; eauto].
    destruct (execute _ _ _); [left|right; left]; eauto 8. }
  destruct (Js.truthy (Inputs.projectGatewayId pi)).
  - destruct (fnGetGatewayClientTls _) as [rd|]; [|trace_facts].
    cbv zeta. destruct (listen _) as [port|]; [|trace_facts].
    cbn [result locals trace].
    destruct (Hcb "localhost" port)
      as [(Hres & Hloc & db & sql & Htr) | [(db & sql & Hres & Htr) | (db & Hres & Htr)]];
      rewrite Hres, ?Hloc, Htr; trace_facts.
  - destruct (Hcb (Inputs.host pi) (Inputs.port pi))
      as [(Hres & Hloc & db & sql & Htr) | [(db & sql & Hres & Htr) | (db & Hres & Htr)]];
      rewrite Hres, ?Hloc, Htr; trace_facts.
Qed.


(** ** Events of the callbacks *)

Lemma transaction_protocol {L} (db : Knex.Client) (queries : list string)
    (l : L) (w : World Backend) :
  Forall (fun e => protocol_event e = true)
    (trace (transaction db (fun tx => forEach queries (fun query => tx_raw tx query)) l w)).
Proof.
  rewrite transaction_run.
  destruct (acquire _); [|repeat constructor].
  destruct (batch _ _ _) as [[applied [q|]] final]; cbn [trace];
    repeat apply Forall_cons_2; try reflexivity;
    apply Forall_app_2; repeat constructor;
    apply Forall_map, Forall_forall; reflexivity.
Qed.

Section CallbackEvents.
Variable P : Event -> Prop.
Variables (pi : Inputs.t) (host : string) (port : Z).
Hypothesis P_destroy : forall id, P (EvDestroy id).
Hypothesis P_protocol : forall e, protocol_event e = true -> P e.

Lemma transaction_events {L} (db : Knex.Client) (queries : list string)
    (l : L) (w : World Backend) :
  Forall P
    (trace (transaction db (fun tx => forEach queries (fun query => tx_raw tx query)) l w)).
Proof. eapply Forall_impl; [apply transaction_protocol | exact P_protocol]. Qed.


Lemma create_callback_events (expireAt : Z) (username password : string)
    (l : unit) (w : World Backend) :
  P (EvClient (clientFor pi host port w)) ->
  (forall expiration,
     P (EvRender (Inputs.creationStatement pi) {| noEscape := true |}
          (create_context username password expiration (Inputs.database pi)))) ->
  Forall P (trace (create_callback pi expireAt username password host port l w)).
Proof.
  intros Hc Hr. rewrite create_callback_run. cbv zeta.
  destruct (Js.toISOString expireAt); [|repeat constructor; auto].
  destruct (compile _ _ _); [|repeat constructor; auto].
  cbn [trace]. repeat apply Forall_cons_2; auto.
  apply Forall_app_2; [apply transaction_events | repeat constructor; auto].
Qed.

Lemma revoke_callback_events (username database : string)
    (l : unit) (w : World Backend) :
  P (EvClient (clientFor pi host port w)) ->
  P (EvRender (Inputs.revocationStatement pi) defaultCompileOptions
       (revoke_context username database)) ->
  Forall P (trace (revoke_callback pi username database host port l w)).
Proof.
  intros Hc Hr. rewrite revoke_callback_run. cbv zeta.
  destruct (compile _ _ _); [|repeat constructor; auto].
  cbn [trace]. repeat apply Forall_cons_2; auto.
  apply Forall_app_2; [apply transaction_events | repeat constructor; auto].
Qed.

Lemma renew_callback_events (entityId : string) (expireAt : Z)
    (l : unit) (w : World Backend) :
  P (EvClient (clientFor pi host port w)) ->
  (forall expiration,
     P (EvRender (str (Inputs.renewStatement pi)) defaultCompileOptions
          (renew_context entityId expiration (Inputs.database pi)))) ->
  Forall P (trace (renew_callback pi entityId expireAt host port l w)).
Proof.
  intros Hc Hr. rewrite renew_callback_run. cbv zeta.
  destruct (Js.toISOString expireAt); [|repeat constructor; auto].
  destruct (compile _ _ _); [|repeat constructor; auto].
  destruct (Js.nonempty _); [|repeat constructor; auto].
  cbn [trace]. repeat apply Forall_cons_2; auto.
  apply Forall_app_2; [apply transaction_events | repeat constructor; auto].
Qed.

End CallbackEvents.

(** Routing keeps a property of events that holds of the gateway's own. *)
Lemma route_events {L} (P : Event -> Prop) (pi : Inputs.t)
    (cb : string -> Z -> M Backend L unit) (l : L) (w : World Backend) :
  (forall e, gateway_event e = true -> P e) ->
  (forall host port, Forall P (trace (cb host port l w))) ->
  Forall P (trace (route pi cb l w)).
Proof.
  intros Hg Hcb.
  destruct (route_outcomes pi cb l w)
    as [(_ & _ & _ & Ht) | (host & port & pre & post & Hpre & Hpost & -> & _)].
  - eapply Forall_impl; [exact Ht | exact Hg].
  - repeat apply Forall_app_2; [| apply Hcb |];
      (eapply Forall_impl; [eassumption | exact Hg]).
Qed.



(** ** Routing *)




(** ** Validation *)

(** C6: a call whose inputs validation refuses fails with the validation
    error before anything is attempted: no event, the world untouched.  In
    particular, inputs whose host is a private or loopback literal are
    refused with a validation error by every entry point when no relay
    identifier is configured, and accepted by validation when one is. *)
Theorem host_check_gates_every_entry_point (inputs : Raw) (pi : Inputs.t)
    (entityId : string) (expireAt : Z) (l : bool) (w : World Backend) :
  parseAsync inputs = Some pi ->
  internalHost (Inputs.host pi) = true ->
  (forall e, validation inputs = Err e ->
     validateConnection inputs l w = mkRun (Err e) l w []
     /\ create inputs expireAt tt w = mkRun (Err e) tt w []
     /\ revoke inputs entityId tt w = mkRun (Err e) tt w []
     /\ renew inputs entityId expireAt tt w = mkRun (Err e) tt w [])
  /\ (Js.truthy (Inputs.projectGatewayId pi) = false ->
      validation inputs = Err ValidationError)
  /\ (Js.truthy (Inputs.projectGatewayId pi) = true ->
      validateProviderInputs inputs l w = mkRun (Ok pi) l w []).
Proof.
  intros Hp Hi. split; [|split].
  - intros e He.
    rewrite validateConnection_run, create_run, revoke_run, renew_run, He.
    repeat split.
  - intros Hg. unfold validation. now rewrite Hp, Hg, Hi.
  - intros Hg. rewrite validateProviderInputs_run. unfold validation.
    now rewrite Hp, Hg.
Qed.

(** ** Renewal without a template *)

(** C7: on a validated configuration without renewal statement, [renew]
    returns the entity identifier it was given and does nothing else: no
    event (no client, no rendering, no statement), and the world as it
    was. *)
Theorem renew_without_template_is_a_no_op (inputs : Raw) (pi : Inputs.t)
    (entityId : string) (expireAt : Z) (w : World Backend) :
  validation inputs = Ok pi ->
  Inputs.renewStatement pi = None ->
  renew inputs entityId expireAt tt w = mkRun (Ok {| entityId := entityId |}) tt w [].
Proof. intros V Hr. rewrite renew_run, V, Hr. reflexivity. Qed.

(** ** Template contexts *)

Lemma revoke_context_dom (username database : string) :
  dom (revoke_context username database) = ({[ "username"; "database" ]} : gset string).
Proof. unfold revoke_context. rewrite !dom_insert_L, dom_empty_L. set_solver. Qed.

Lemma renew_context_dom (username expiration database : string) :
  dom (renew_context username expiration database)
  = ({[ "username"; "expiration"; "database" ]} : gset string).
Proof. unfold renew_context. rewrite !dom_insert_L, dom_empty_L. set_solver. Qed.

Lemma create_context_dom (username password expiration database : string) :
  dom (create_context username password expiration database)
  = ({[ "username"; "password"; "expiration"; "database" ]} : gset string).
Proof. unfold create_context. rewrite !dom_insert_L, dom_empty_L. set_solver. Qed.

Lemma create_context_password (username password expiration database : string) :
  create_context username password expiration database !! "password" = Some password.
Proof.
  unfold create_context.
  rewrite lookup_insert_ne by discriminate. apply lookup_insert_eq.
Qed.

Lemma no_password_key : "password" ∉ ({[ "username"; "database" ]} : gset string).
Proof. set_unfold. intuition discriminate. Qed.

Lemma no_password_key' :
  "password" ∉ ({[ "username"; "expiration"; "database" ]} : gset string).
Proof. set_unfold. intuition discriminate. Qed.

Lemma context_without_password (context : gmap string string) (keys : gset string) :
  dom context = keys -> "password" ∉ keys -> context !! "password" = None.
Proof. intros <- Hn. now apply not_elem_of_dom. Qed.

(** C8: whatever the inputs and the world, every rendering of a [revoke]
    call binds exactly [username] and [database], every rendering of a
    [renew] call exactly [username], [expiration] and [database], and
    neither binds [password]; every rendering of a [create] call binds
    [username], [password], [expiration] and [database], the password
    being the one the call has generated. *)
Theorem only_create_renders_the_password
    (inputs : Raw) (entityId : string) (expireAt : Z) (w : World Backend) :
  Forall (renders_with {[ "username"; "database" ]})
         (trace (revoke inputs entityId tt w))
  /\ Forall (leaves_unbound "password") (trace (revoke inputs entityId tt w))
  /\ Forall (renders_with {[ "username"; "expiration"; "database" ]})
            (trace (renew inputs entityId expireAt tt w))
  /\ Forall (leaves_unbound "password") (trace (renew inputs entityId expireAt tt w))
  /\ Forall (renders_with {[ "username"; "password"; "expiration"; "database" ]})
            (trace (create inputs expireAt tt w))
  /\ match validation inputs with
     | Ok pi => Forall (binds "password" (issuedPassword pi w))
                       (trace (create inputs expireAt tt w))
     | Err _ => trace (create inputs expireAt tt w) = []
     end.
Proof.
  rewrite revoke_run, renew_run, create_run.
  destruct (validation inputs) as [pi|e]; [|repeat split; constructor].
  cbv zeta. cbn [trace].
  assert (Hkeys : forall keys e, gateway_event e = true -> renders_with keys e)
    by (intros keys []; easy).
  assert (Hnone : forall e, gateway_event e = true -> leaves_unbound "password" e)
    by (intros []; easy).
  assert (Hkeys' : forall keys e, protocol_event e = true -> renders_with keys e)
    by (intros keys []; easy).
  assert (Hnone' : forall e, protocol_event e = true -> leaves_unbound "password" e)
    by (intros []; easy).
  repeat split.
  - apply route_events; [apply Hkeys|]. intros host port.
    apply revoke_callback_events; auto; try exact I; try exact (fun _ => I).
    apply revoke_context_dom.
  - apply route_events; [apply Hnone|]. intros host port.
    apply revoke_callback_events; auto; try exact I; try exact (fun _ => I).
    eapply context_without_password; [apply revoke_context_dom | apply no_password_key].
  - destruct (Js.truthy (Inputs.renewStatement pi)); [|constructor].
    apply route_events; [apply Hkeys|]. intros host port.
    apply renew_callback_events; auto; try exact I; try exact (fun _ => I).
    intros iso. apply renew_context_dom.
  - destruct (Js.truthy (Inputs.renewStatement pi)); [|constructor].
    apply route_events; [apply Hnone|]. intros host port.
    apply renew_callback_events; auto; try exact I; try exact (fun _ => I).
    intros iso. eapply context_without_password; [apply renew_context_dom | apply no_password_key'].
  - apply route_events; [apply Hkeys|]. intros host port.
    apply create_callback_events; auto; try exact I; try exact (fun _ => I).
    intros iso. apply create_context_dom.
  - apply route_events; [intros []; easy|]. intros host port.
    apply create_callback_events; try exact I; try exact (fun _ => I).
    + intros []; easy.
    + intros iso. apply create_context_password.
Qed.

(** ** The client *)

(** C9: with a CA certificate (present and not empty) the client's
    connection has an [ssl] option that carries the CA and has
    [rejectUnauthorized] false; without one it has no [ssl] option.  The
    driver options exist for MsSQL only, and there [trustServerCertificate]
    is true exactly when there is no CA, which is otherwise handed to the
    driver.  [$getClient] makes its client with this configuration. *)
Theorem client_tls_options (pi : Inputs.t) (l : unit) (w : World Backend) :
  (forall ca, Inputs.ca pi = Some ca -> ca <> EmptyString ->
     Knex.ssl (Knex.connection (clientConfig pi)) = Some (Knex.mkSsl false ca))
  /\ (Js.truthy (Inputs.ca pi) = false ->
      Knex.ssl (Knex.connection (clientConfig pi)) = None)
  /\ (Inputs.client pi = MsSQL ->
      exists o, Knex.options (Knex.connection (clientConfig pi)) = Some o
        /\ (Knex.trustServerCertificate o = true <-> Js.truthy (Inputs.ca pi) = false)
        /\ Knex.cryptoCredentialsDetails o
           = (if Js.truthy (Inputs.ca pi) then Inputs.ca pi else None))
  /\ (Inputs.client pi <> MsSQL ->
      Knex.options (Knex.connection (clientConfig pi)) = None)
  /\ getClient pi l w
     = mkRun (Ok (Knex.mkClient (nextClient w) (clientConfig pi))) l (afterClient w)
             [EvClient (Knex.mkClient (nextClient w) (clientConfig pi))].
Proof.
  unfold clientConfig; cbn. repeat split.
  - intros ca -> Hne. cbn. destruct (String.eqb_spec ca EmptyString); [contradiction|].
    reflexivity.
  - now intros ->.
  - intros ->. cbn. eexists. split; [reflexivity|]. cbn.
    destruct (Inputs.ca pi) as [ca|]; cbn; [|tauto].
    destruct (String.eqb ca EmptyString); cbn; [tauto|]. split; [easy|split; easy].
  - intros Hc. destruct (Inputs.client pi); cbn; congruence.
Qed.


End Reasoning.

(** ** Scenarios *)

(** C2, on the code: a [renew] whose renewal template does not parse, or
    whose expiration is no valid time, and a [validateConnection] whose
    probe the backend refuses, each make a client and never destroy it. *)
Theorem sessions_left_open :
  result (renew (H := Toy.healthy) Toy.broken_renewal "alice" 1700000000000 tt Toy.start)
  = Err TemplateError
  /\ List.filter session_event
       (trace (renew (H := Toy.healthy) Toy.broken_renewal "alice" 1700000000000 tt
                     Toy.start))
     = [EvClient (clientFor (Toy.inputs "db.example.com" None
                    (Some "ALTER USER {{username} VALID UNTIL '{{expiration}}'"))
                    "db.example.com" 5432 Toy.start)]
  /\ result (renew (H := Toy.healthy) Toy.renewable "alice" 8640000000000001 tt Toy.start)
     = Err RangeError
  /\ List.filter session_event
       (trace (renew (H := Toy.healthy) Toy.renewable "alice" 8640000000000001 tt
                     Toy.start))
     = [EvClient (clientFor (Toy.inputs "db.example.com" None
                    (Some "ALTER USER {{username}} VALID UNTIL '{{expiration}}'"))
                    "db.example.com" 5432 Toy.start)]
  /\ result (validateConnection (H := Toy.refusing_probe) Toy.direct false Toy.start)
     = Err (ExecutionError "SELECT 1")
  /\ List.filter session_event
       (trace (validateConnection (H := Toy.refusing_probe) Toy.direct false Toy.start))
     = [EvClient (clientFor (Toy.inputs "db.example.com" None None)
                    "db.example.com" 5432 Toy.start)].
Proof. repeat split; vm_compute; reflexivity. Qed.

(** C3, as the spec words it, has [validateConnection] return [false] when
    the connection came up and the probe failed; here the connection comes
    up, the probe is refused, and the call throws the probe's error. *)
Lemma refused_probe_does_not_return_false :
  In (EvAcquire 0 true)
     (trace (validateConnection (H := Toy.refusing_probe) Toy.direct false Toy.start))
  /\ In (EvRaw 0 "SELECT 1" false)
        (trace (validateConnection (H := Toy.refusing_probe) Toy.direct false Toy.start))
  /\ result (validateConnection (H := Toy.refusing_probe) Toy.direct false Toy.start)
     = Err (ExecutionError "SELECT 1")
  /\ result (validateConnection (H := Toy.refusing_probe) Toy.direct false Toy.start)
     <> Ok false.
Proof. vm_compute. intuition congruence. Qed.


(** ** The theorems at work in the small world *)


Lemma refused_probe_propagates :
  In (EvRaw 0 "SELECT 1" false)
     (trace (validateConnection (H := Toy.refusing_probe) Toy.direct false Toy.start))
  /\ result (validateConnection (H := Toy.refusing_probe) Toy.direct false Toy.start)
     = Err (ExecutionError "SELECT 1").
Proof.
  assert (Hin : In (EvRaw 0 "SELECT 1" false)
     (trace (validateConnection (H := Toy.refusing_probe) Toy.direct false Toy.start)))
    by (vm_compute; tauto).
  split; [exact Hin|].
  exact (proj2 (proj1 (proj2 (proj2
           (validateConnection_true_or_throws
              (H := Toy.refusing_probe) Toy.direct false Toy.start)))
           0%nat "SELECT 1" Hin)).
Defined.


Lemma internal_host_needs_the_relay :
  create (H := Toy.healthy) Toy.internal_direct 1700000000000 tt Toy.start
  = mkRun (Err ValidationError) tt Toy.start []
  /\ validateProviderInputs (H := Toy.healthy) Toy.internal_tunnelled false Toy.start
     = mkRun (Ok (Toy.inputs "10.0.0.5" (Some "gw-1") None)) false Toy.start [].
Proof.
  split.
  - apply (proj1 (host_check_gates_every_entry_point
                    (H := Toy.healthy) Toy.internal_direct
                    (Toy.inputs "10.0.0.5" None None) "alice" 1700000000000 false
                    Toy.start eq_refl eq_refl) ValidationError).
    vm_compute; reflexivity.
  - apply (proj2 (proj2 (host_check_gates_every_entry_point
                    (H := Toy.healthy) Toy.internal_tunnelled
                    (Toy.inputs "10.0.0.5" (Some "gw-1") None) "alice" 1700000000000
                    false Toy.start eq_refl eq_refl))).
    vm_compute; reflexivity.
Defined.

Lemma renew_without_template_at_work :
  renew (H := Toy.healthy) Toy.direct "alice" 1700000000000 tt Toy.start
  = mkRun (Ok {| entityId := "alice" |}) tt Toy.start [].
Proof.
  apply (renew_without_template_is_a_no_op (H := Toy.healthy) Toy.direct
           (Toy.inputs "db.example.com" None None)).
  - vm_compute; reflexivity.
  - reflexivity.
Defined.

Lemma client_with_a_certificate :
  Knex.ssl (Knex.connection (clientConfig
     (Inputs.mk MsSQL "db.example.com" 1433 "appdb" "sa" "sa-secret"
        (Some "-----BEGIN CERTIFICATE-----") "CREATE LOGIN {{username}}"
        "DROP LOGIN {{username}}" None None)))
  = Some (Knex.mkSsl false "-----BEGIN CERTIFICATE-----").
Proof.
  apply (proj1 (client_tls_options (Backend := list string)
     (Inputs.mk MsSQL "db.example.com" 1433 "appdb" "sa" "sa-secret"
        (Some "-----BEGIN CERTIFICATE-----") "CREATE LOGIN {{username}}"
        "DROP LOGIN {{username}}" None None) tt Toy.start)
     "-----BEGIN CERTIFICATE-----" eq_refl).
  discriminate.
Defined.

(** The renderings the context theorem speaks of do occur. *)
Example revoke_renders_once :
  List.filter (fun e => match e with EvRender _ _ _ => true | _ => false end)
    (trace (revoke (H := Toy.healthy) Toy.direct "alice" tt Toy.start))
  = [EvRender "DROP USER {{username}}" defaultCompileOptions
       (revoke_context "alice" "appdb")].
Proof. vm_compute; reflexivity. Qed.

(** A healthy [create] commits both statements of the template. *)
Example create_commits_the_batch :
  committed (world (create (H := Toy.healthy) Toy.direct 1700000000000 tt Toy.start))
  = ["CREATE USER 3ahovCJQX4bipwDKRY5cjqxELSZ6dkry PASSWORD 'xELSZ6~elszGNU18*gnuBIPW3-bipwDKRY5.dkryFMT07!fm'";
     "GRANT ALL ON appdb TO 3ahovCJQX4bipwDKRY5cjqxELSZ6dkry"].
Proof. vm_compute; reflexivity. Qed.

(** * Further properties of the provider *)

(** ** Splitting a rendered template *)

Lemma mem_char_app (c : ascii) (s t : string) :
  Js.mem_char c (s +:+ t) = Js.mem_char c s || Js.mem_char c t.
Proof. induction s as [|d s IH]; simpl; [reflexivity|]. now rewrite IH, orb_assoc. Qed.

Lemma mem_char_rev_app (c : ascii) (s acc : string) :
  Js.mem_char c (String.rev_app s acc) = Js.mem_char c s || Js.mem_char c acc.
Proof.
  revert acc. induction s as [|d s IH]; intros acc; simpl; [reflexivity|].
  rewrite IH. simpl. destruct (Ascii.eqb c d), (Js.mem_char c s); reflexivity.
Qed.

Lemma mem_char_rev (c : ascii) (s : string) :
  Js.mem_char c (String.rev s) = Js.mem_char c s.
Proof. unfold String.rev. rewrite mem_char_rev_app. simpl. apply orb_false_r. Qed.

Lemma rev_app_app (s acc t : string) :
  String.rev_app s acc +:+ t = String.rev_app s (acc +:+ t).
Proof. revert acc. induction s as [|d s IH]; intros acc; simpl; [reflexivity|apply IH]. Qed.

(** Moving the newest character of the current piece back in front of the
    rest of the text. *)
Lemma rev_step (c : ascii) (cur s : string) :
  String.rev (String c cur) +:+ s = String.rev cur +:+ String c s.
Proof. unfold String.rev. simpl. now rewrite !rev_app_app. Qed.

Lemma split_aux_pieces (sep : ascii) (s cur : string) :
  Js.mem_char sep cur = false ->
  Forall (fun piece => Js.mem_char sep piece = false) (Js.split_aux sep s cur).
Proof.
  revert cur. induction s as [|c s IH]; intros cur Hcur; simpl.
  - repeat constructor. now rewrite mem_char_rev.
  - destruct (Ascii.eqb c sep) eqn:E.
    + constructor; [now rewrite mem_char_rev | now apply IH].
    + apply IH. simpl. now rewrite Ascii.eqb_sym, E.
Qed.

Lemma delete_char_app (c : ascii) (s t : string) :
  delete_char c (s +:+ t) = delete_char c s +:+ delete_char c t.
Proof.
  induction s as [|d s IH]; simpl; [reflexivity|].
  destruct (Ascii.eqb d c); simpl; now rewrite IH.
Qed.

Lemma delete_char_absent (c : ascii) (s : string) :
  Js.mem_char c s = false -> delete_char c s = s.
Proof.
  induction s as [|d s IH]; simpl; [reflexivity|].
  intros [Hd Hs]%orb_false_iff. rewrite Ascii.eqb_sym, Hd. now rewrite IH.
Qed.

Lemma append_cons (c : ascii) (s t : string) : String c s +:+ t = String c (s +:+ t).
Proof. reflexivity. Qed.

Lemma app_empty_r (s : string) : s +:+ EmptyString = s.
Proof. induction s as [|c s IH]; [reflexivity | now rewrite append_cons, IH]. Qed.

Lemma concat_split_aux (sep : ascii) (s cur : string) :
  String.concat (String sep EmptyString) (Js.split_aux sep s cur) = String.rev cur +:+ s.
Proof.
  revert cur. induction s as [|c s IH]; intros cur.
  - simpl. now rewrite app_empty_r.
  - cbn [Js.split_aux]. destruct (Ascii.eqb_spec c sep) as [->|Hne].
    + specialize (IH EmptyString). cbn [String.concat].
      destruct (Js.split_aux sep s EmptyString) eqn:Hs.
      * destruct s; simpl in Hs; [discriminate|].
        destruct (Ascii.eqb a sep); discriminate.
      * rewrite IH. reflexivity.
    + rewrite IH. apply rev_step.
Qed.

Lemma concat_nonempty_pieces (pieces : list string) :
  String.concat EmptyString (List.filter Js.nonempty pieces)
  = String.concat EmptyString pieces.
Proof.
  induction pieces as [|p rest IH]; [reflexivity|].
  assert (Hc : forall l, String.concat EmptyString (p :: l)
                         = p +:+ String.concat EmptyString l).
  { intros [|q l]; simpl; [now rewrite app_empty_r | reflexivity]. }
  rewrite Hc. simpl. unfold Js.nonempty at 1.
  destruct (String.eqb_spec p EmptyString) as [->|Hne]; simpl negb; cbv iota.
  - exact IH.
  - destruct (List.filter Js.nonempty rest) eqn:Hf.
    + simpl in *. rewrite <- IH. now rewrite app_empty_r.
    + cbn [String.concat]. cbn [String.concat] in IH. now rewrite IH.
Qed.

Lemma concat_delete_split_aux (sep : ascii) (s cur : string) :
  Js.mem_char sep cur = false ->
  String.concat EmptyString (Js.split_aux sep s cur)
  = String.rev cur +:+ delete_char sep s.
Proof.
  revert cur. induction s as [|c s IH]; intros cur Hcur.
  - simpl. now rewrite app_empty_r.
  - cbn [Js.split_aux delete_char]. destruct (Ascii.eqb c sep) eqn:E.
    + assert (Hc : forall p l, String.concat EmptyString (p :: l)
                               = p +:+ String.concat EmptyString l).
      { intros p [|q l]; simpl; [now rewrite app_empty_r | reflexivity]. }
      rewrite Hc, IH by reflexivity. reflexivity.
    + rewrite IH by (simpl; now rewrite Ascii.eqb_sym, E).
      apply rev_step.
Qed.

Lemma split_aux_no_separator (sep : ascii) (s cur : string) :
  Js.mem_char sep s = false -> Js.split_aux sep s cur = [String.rev cur +:+ s].
Proof.
  revert cur. induction s as [|c s IH]; intros cur Hm.
  - cbn [Js.split_aux]. now rewrite app_empty_r.
  - cbn [Js.mem_char] in Hm. apply orb_false_iff in Hm as [Hc Hm].
    cbn [Js.split_aux]. rewrite Ascii.eqb_sym, Hc, IH by exact Hm.
    apply f_equal2; [apply rev_step | reflexivity].
Qed.

Lemma split_aux_at_separator (sep : ascii) (head rest cur : string) :
  Js.mem_char sep head = false ->
  Js.split_aux sep (head +:+ String sep rest) cur
  = (String.rev cur +:+ head) :: Js.split_aux sep rest EmptyString.
Proof.
  revert cur. induction head as [|c head IH]; intros cur Hm.
  - change (EmptyString +:+ String sep rest) with (String sep rest).
    cbn [Js.split_aux]. now rewrite Ascii.eqb_refl, app_empty_r.
  - cbn [Js.mem_char] in Hm. apply orb_false_iff in Hm as [Hc Hm].
    rewrite append_cons. cbn [Js.split_aux].
    rewrite Ascii.eqb_sym, Hc, IH by exact Hm.
    apply f_equal2; [apply rev_step | reflexivity].
Qed.

(** X1: every statement a call sends is a non-empty piece of the rendered
    text with no semicolon in it. *)
Theorem statements_are_nonempty_and_free_of_separators (rendered : string) :
  Forall (fun query => query <> EmptyString /\ Js.mem_char ";" query = false)
         (statements rendered).
Proof.
  unfold statements. apply Forall_forall. intros q Hq.
  apply list_elem_of_In, List.filter_In in Hq as [Hin Hne].
  split.
  - intros ->. discriminate.
  - pose proof (split_aux_pieces ";" rendered EmptyString eq_refl) as Hp.
    rewrite Forall_forall in Hp. apply Hp. now apply list_elem_of_In.
Qed.

(** X2: splitting loses nothing but the separators: the pieces joined by
    semicolons are the rendered text again, and the statements put end to
    end are the rendered text with its semicolons taken out; so a rendered
    text without semicolon is sent as it is, as one statement, unless it is
    empty. *)
Theorem statements_lose_only_separators (rendered : string) :
  String.concat ";" (Js.split ";" rendered) = rendered
  /\ String.concat EmptyString (statements rendered) = delete_char ";" rendered
  /\ (Js.mem_char ";" rendered = false ->
      statements rendered = if Js.nonempty rendered then [rendered] else []).
Proof.
  split; [apply (concat_split_aux ";" rendered EmptyString)|]. split.
  - unfold statements. rewrite concat_nonempty_pieces.
    apply (concat_delete_split_aux ";" rendered EmptyString eq_refl).
  - intros Hno. unfold statements, Js.split.
    rewrite split_aux_no_separator by exact Hno.
    change (String.rev EmptyString +:+ rendered) with rendered.
    cbn [List.filter]. destruct (Js.nonempty rendered); reflexivity.
Qed.

Lemma statements_at_work :
  statements "DROP USER u" = ["DROP USER u"].
Proof.
  rewrite (proj2 (proj2 (statements_lose_only_separators "DROP USER u")) eq_refl).
  reflexivity.
Defined.

(** ** The generated credentials in a statement *)

Lemma all_chars_impl (p q : ascii -> bool) (s : string) :
  (forall c, p c = true -> q c = true) ->
  Js.all_chars p s = true -> Js.all_chars q s = true.
Proof.
  intros Hpq. induction s as [|c s IH]; simpl; [reflexivity|].
  intros [Hc Hs]%andb_true_iff. now rewrite (Hpq c Hc), IH.
Qed.

Lemma charset_has_no_hazard (c : ascii) :
  Js.mem_char c charset = true -> negb (Js.mem_char c hazards) = true.
Proof. destruct c as [[] [] [] [] [] [] [] []]; vm_compute; congruence. Qed.

Lemma alnum_is_no_hazard (c : ascii) :
  Js.is_alnum c = true -> negb (Js.mem_char c hazards) = true.
Proof. destruct c as [[] [] [] [] [] [] [] []]; vm_compute; congruence. Qed.

Lemma no_hazard_unescaped (c : ascii) :
  negb (Js.mem_char c hazards) = true ->
  Handlebars.escapeChar c = String c EmptyString /\ Ascii.eqb ";" c = false.
Proof. destruct c as [[] [] [] [] [] [] [] []]; vm_compute; intuition congruence. Qed.

Lemma no_hazard_text (s : string) :
  Js.all_chars (fun c => negb (Js.mem_char c hazards)) s = true ->
  Js.mem_char ";" s = false /\ Handlebars.escapeExpression s = s.
Proof.
  induction s as [|c s IH]; [split; reflexivity|].
  cbn [Js.all_chars Js.mem_char Handlebars.escapeExpression].
  intros [Hc Hs]%andb_true_iff.
  destruct (no_hazard_unescaped c Hc) as [-> ->], (IH Hs) as [-> ->].
  split; reflexivity.
Qed.

(** X3: whatever the random source and the dialect, the generated password
    and username hold no semicolon, quote, backslash or blank and none of
    the characters the renderer escapes: they cannot end the statement they
    are rendered into, and rendering them with or without escaping gives
    the same text. *)
Theorem generated_credentials_are_inert (rnd : Entropy) (provider : SqlProviders) :
  Js.all_chars (fun c => negb (Js.mem_char c hazards)) (generatePassword rnd provider) = true
  /\ Js.all_chars (fun c => negb (Js.mem_char c hazards)) (generateUsername rnd provider) = true
  /\ Js.mem_char ";" (generatePassword rnd provider) = false
  /\ Js.mem_char ";" (generateUsername rnd provider) = false
  /\ Handlebars.escapeExpression (generatePassword rnd provider)
     = generatePassword rnd provider
  /\ Handlebars.escapeExpression (generateUsername rnd provider)
     = generateUsername rnd provider.
Proof.
  assert (Hpw : Js.all_chars (fun c => Js.mem_char c charset)
                  (generatePassword rnd provider) = true)
    by (apply pick_all_chars; [reflexivity | discriminate]).
  assert (Hu : Js.all_chars Js.is_alnum (generateUsername rnd provider) = true).
  { assert (Hid : Js.all_chars Js.is_alnum (alphaNumericNanoId rnd 32) = true)
      by (apply pick_all_chars; [reflexivity | discriminate]).
    unfold generateUsername. destruct (is_oracle provider); [|exact Hid].
    now apply upper_or_digit_alnum, toUpperCase_alnum. }
  assert (Hp' := all_chars_impl _ _ _ charset_has_no_hazard Hpw).
  assert (Hu' := all_chars_impl _ _ _ alnum_is_no_hazard Hu).
  destruct (no_hazard_text _ Hp') as [? ?], (no_hazard_text _ Hu') as [? ?].
  repeat split; assumption.
Qed.

(** ** Revocation and renewal *)

Section Lifecycle.
Context {Raw Backend : Type} `{Collaborators Raw Backend}.

(** The statement events of a routed callback are those of the callback. *)
Lemma route_statement_events {L} (pi : Inputs.t) (cb : string -> Z -> M Backend L unit)
    (l : L) (w : World Backend) :
  (result (route pi cb l w) = Err GatewayError
   /\ world (route pi cb l w) = w
   /\ List.filter statement_event (trace (route pi cb l w)) = [])
  \/ exists host port,
       result (route pi cb l w) = result (cb host port l w)
       /\ world (route pi cb l w) = world (cb host port l w)
       /\ locals (route pi cb l w) = locals (cb host port l w)
       /\ List.filter statement_event (trace (route pi cb l w))
          = List.filter statement_event (trace (cb host port l w)).
Proof.
  destruct (route_outcomes pi cb l w)
    as [(Hr & _ & Hw & Ht) | (host & port & pre & post & Hpre & Hpost & Ht & Hr & Hl & Hw)].
  - left. repeat split; try assumption.
    apply filter_gateway; [now intros [] | exact Ht].
  - right. exists host, port. repeat split; try assumption.
    rewrite Ht, !List.filter_app.
    rewrite (filter_gateway statement_event pre), (filter_gateway statement_event post),
      app_nil_r by (assumption || now intros []).
    reflexivity.
Qed.

(** The statement events of a transaction over a batch, with its outcome. *)
Lemma transaction_statement_events {L} (db : Knex.Client) (queries : list string)
    (l : L) (w : World Backend) :
  let r := transaction db (fun tx => forEach queries (fun query => tx_raw tx query)) l w in
  (result r = Err ConnectionError /\ world r = w
   /\ List.filter statement_event (trace r) = [])
  \/ exists applied refused final,
       batch (Knex.connection (Knex.config db)) queries (committed w)
       = (applied, refused, final)
       /\ match refused with
          | None =>
              applied = queries
              /\ result r = Ok tt
              /\ committed (world r) = final
              /\ List.filter statement_event (trace r)
                 = EvBegin (Knex.id db)
                   :: map (fun q => EvRaw (Knex.id db) q true) applied
                   ++ [EvCommit (Knex.id db)]
          | Some q =>
              (exists rest, queries = applied ++ q :: rest)
              /\ result r = Err (ExecutionError q)
              /\ committed (world r) = committed w
              /\ List.filter statement_event (trace r)
                 = EvBegin (Knex.id db)
                   :: map (fun q => EvRaw (Knex.id db) q true) applied
                   ++ [EvRaw (Knex.id db) q false; EvRollback (Knex.id db)]
          end.
Proof.
  cbv zeta. rewrite transaction_run.
  destruct (acquire _); [|left; repeat split].
  destruct (batch _ _ _) as [[applied refused] final] eqn:Hb.
  pose proof (batch_splits _ _ _ _ _ _ Hb) as Hsplit.
  right. exists applied, refused, final. split; [reflexivity|].
  destruct refused as [q|]; cbn [result world trace committed];
    cbn [List.filter statement_event app];
    rewrite !List.filter_app, filter_statement_raws; cbn [List.filter statement_event];
    repeat split; auto.
Qed.

(** X4: whatever the inputs and the world, the statement protocol of a
    [revoke] call is empty or one transaction over the statements of the
    rendered revocation template, committed after the last statement or
    rolled back at the first one the backend refuses; a failed [revoke]
    leaves the backend's committed state as it was, and a successful one
    returns the entity identifier it was given, after its transaction. *)
Theorem revoke_runs_one_atomic_transaction
    (inputs : Raw) (entityId : string) (w : World Backend) :
  (List.filter statement_event (trace (revoke inputs entityId tt w)) = []
   \/ exists pi host port db rendered applied refused final,
        validation inputs = Ok pi
        /\ db = clientFor pi host port w
        /\ compile (Inputs.revocationStatement pi) defaultCompileOptions
             (revoke_context entityId (Inputs.database pi))
           = Some rendered
        /\ batch (Knex.connection (Knex.config db)) (statements rendered) (committed w)
           = (applied, refused, final)
        /\ match refused with
           | None =>
               applied = statements rendered
               /\ result (revoke inputs entityId tt w) = Ok {| entityId := entityId |}
               /\ committed (world (revoke inputs entityId tt w)) = final
               /\ List.filter statement_event (trace (revoke inputs entityId tt w))
                  = EvBegin (Knex.id db)
                    :: map (fun q => EvRaw (Knex.id db) q true) applied
                    ++ [EvCommit (Knex.id db)]
           | Some q =>
               (exists rest, statements rendered = applied ++ q :: rest)
               /\ result (revoke inputs entityId tt w) = Err (ExecutionError q)
               /\ committed (world (revoke inputs entityId tt w)) = committed w
               /\ List.filter statement_event (trace (revoke inputs entityId tt w))
                  = EvBegin (Knex.id db)
                    :: map (fun q => EvRaw (Knex.id db) q true) applied
                    ++ [EvRaw (Knex.id db) q false; EvRollback (Knex.id db)]
           end)
  /\ (forall e, result (revoke inputs entityId tt w) = Err e ->
       committed (world (revoke inputs entityId tt w)) = committed w)
  /\ (forall receipt, result (revoke inputs entityId tt w) = Ok receipt ->
       receipt = {| entityId := entityId |}
       /\ List.filter statement_event (trace (revoke inputs entityId tt w)) <> []).
Proof.
  rewrite revoke_run.
  destruct (validation inputs) as [pi|e] eqn:V;
    [|split; [left; reflexivity | split; [reflexivity | discriminate]]].
  cbv zeta. cbn [result world trace].
  destruct (route_statement_events pi
              (revoke_callback pi entityId (Inputs.database pi)) tt w)
    as [(-> & -> & ->) | (host & port & -> & -> & _ & ->)].
  { split; [left; reflexivity | split; [reflexivity | discriminate]]. }
  rewrite revoke_callback_run. cbv zeta.
  destruct (compile _ _ _) as [rendered|] eqn:Hc;
    [|split; [left; reflexivity | split; [reflexivity | discriminate]]].
  cbn [result world trace List.filter statement_event].
  rewrite List.filter_app. cbn [List.filter statement_event]. rewrite app_nil_r.
  destruct (transaction_statement_events
              (clientFor pi host port w) (statements rendered) tt (afterClient w))
    as [(-> & -> & ->) | (applied & refused & final & Hb & Hcase)].
  { split; [left; reflexivity | split; [reflexivity | discriminate]]. }
  cbn [afterClient committed] in Hb, Hcase.
  destruct refused as [q|].
  - destruct Hcase as (Hrest & -> & -> & ->).
    split; [right | split; [reflexivity | discriminate]].
    exists pi, host, port, (clientFor pi host port w), rendered, applied, (Some q), final.
    repeat split; assumption.
  - destruct Hcase as (-> & -> & Hfin & ->).
    split; [right | split; [discriminate | intros ? [= <-]; split; [reflexivity | discriminate]]].
    exists pi, host, port, (clientFor pi host port w), rendered, (statements rendered),
      None, final.
    repeat split; assumption.
Qed.

(** X5: the statement protocol of a [renew] call is empty or one
    transaction over the statements of the rendered renewal template, which
    is then not the empty text; a failed [renew] leaves the backend's
    committed state as it was, and a successful one returns the entity
    identifier it was given. *)
Theorem renew_runs_one_atomic_transaction
    (inputs : Raw) (entityId : string) (expireAt : Z) (w : World Backend) :
  (List.filter statement_event (trace (renew inputs entityId expireAt tt w)) = []
   \/ exists pi host port db expiration rendered applied refused final,
        validation inputs = Ok pi
        /\ db = clientFor pi host port w
        /\ Js.toISOString expireAt = Some expiration
        /\ compile (str (Inputs.renewStatement pi)) defaultCompileOptions
             (renew_context entityId expiration (Inputs.database pi))
           = Some rendered
        /\ rendered <> EmptyString
        /\ batch (Knex.connection (Knex.config db)) (statements rendered) (committed w)
           = (applied, refused, final)
        /\ match refused with
           | None =>
               applied = statements rendered
               /\ result (renew inputs entityId expireAt tt w)
                  = Ok {| entityId := entityId |}
               /\ committed (world (renew inputs entityId expireAt tt w)) = final
               /\ List.filter statement_event (trace (renew inputs entityId expireAt tt w))
                  = EvBegin (Knex.id db)
                    :: map (fun q => EvRaw (Knex.id db) q true) applied
                    ++ [EvCommit (Knex.id db)]
           | Some q =>
               (exists rest, statements rendered = applied ++ q :: rest)
               /\ result (renew inputs entityId expireAt tt w) = Err (ExecutionError q)
               /\ committed (world (renew inputs entityId expireAt tt w)) = committed w
               /\ List.filter statement_event (trace (renew inputs entityId expireAt tt w))
                  = EvBegin (Knex.id db)
                    :: map (fun q => EvRaw (Knex.id db) q true) applied
                    ++ [EvRaw (Knex.id db) q false; EvRollback (Knex.id db)]
           end)
  /\ (forall e, result (renew inputs entityId expireAt tt w) = Err e ->
       committed (world (renew inputs entityId expireAt tt w)) = committed w)
  /\ (forall receipt, result (renew inputs entityId expireAt tt w) = Ok receipt ->
       receipt = {| entityId := entityId |}).
Proof.
  rewrite renew_run.
  destruct (validation inputs) as [pi|e] eqn:V;
    [|split; [left; reflexivity | split; [reflexivity | discriminate]]].
  destruct (Js.truthy (Inputs.renewStatement pi));
    [|split; [left; reflexivity | split; [discriminate | now intros ? [= <-]]]].
  cbv zeta. cbn [result world trace].
  destruct (route_statement_events pi (renew_callback pi entityId expireAt) tt w)
    as [(-> & -> & ->) | (host & port & -> & -> & _ & ->)].
  { split; [left; reflexivity | split; [reflexivity | discriminate]]. }
  rewrite renew_callback_run. cbv zeta.
  destruct (Js.toISOString expireAt) as [iso|] eqn:Hiso;
    [|split; [left; reflexivity | split; [reflexivity | discriminate]]].
  destruct (compile _ _ _) as [rendered|] eqn:Hc;
    [|split; [left; reflexivity | split; [reflexivity | discriminate]]].
  destruct (Js.nonempty rendered) eqn:Hne;
    [|split; [left; reflexivity | split; [discriminate | now intros ? [= <-]]]].
  assert (Hne' : rendered <> EmptyString) by (intros ->; discriminate).
  cbn [result world trace List.filter statement_event].
  rewrite List.filter_app. cbn [List.filter statement_event]. rewrite app_nil_r.
  destruct (transaction_statement_events
              (clientFor pi host port w) (statements rendered) tt (afterClient w))
    as [(-> & -> & ->) | (applied & refused & final & Hb & Hcase)].
  { split; [left; reflexivity | split; [reflexivity | discriminate]]. }
  cbn [afterClient committed] in Hb, Hcase.
  destruct refused as [q|].
  - destruct Hcase as (Hrest & -> & -> & ->).
    split; [right | split; [reflexivity | discriminate]].
    exists pi, host, port, (clientFor pi host port w), iso, rendered, applied,
      (Some q), final.
    repeat split; assumption.
  - destruct Hcase as (-> & -> & Hfin & ->).
    split; [right | split; [discriminate | now intros ? [= <-]]].
    exists pi, host, port, (clientFor pi host port w), iso, rendered,
      (statements rendered), None, final.
    repeat split; assumption.
Qed.

(** X6: the only statement a [validateConnection] call ever sends is the
    probe of the configured dialect, once, outside any transaction; the
    call returns [true] exactly when that statement went through, and a
    failed call leaves the backend's committed state as it was. *)
Theorem validateConnection_sends_only_the_probe
    (inputs : Raw) (l : bool) (w : World Backend) :
  (List.filter statement_event (trace (validateConnection inputs l w)) = []
   /\ result (validateConnection inputs l w) <> Ok true
   \/ exists pi id succeeded,
        validation inputs = Ok pi
        /\ List.filter statement_event (trace (validateConnection inputs l w))
           = [EvRaw id (probe (Inputs.client pi)) succeeded]
        /\ (succeeded = true <-> result (validateConnection inputs l w) = Ok true))
  /\ (forall e, result (validateConnection inputs l w) = Err e ->
       committed (world (validateConnection inputs l w)) = committed w).
Proof.
  rewrite validateConnection_run.
  destruct (validation inputs) as [pi|e] eqn:V;
    [|split; [left; split; [reflexivity | discriminate] | reflexivity]].
  cbv zeta. cbn [result world trace].
  destruct (route_statement_events pi (validateConnection_callback pi) false w)
    as [(-> & -> & ->) | (host & port & -> & -> & -> & ->)].
  { split; [left; split; [reflexivity | discriminate] | reflexivity]. }
  rewrite validateConnection_callback_run. cbv zeta. fold (probe (Inputs.client pi)).
  destruct (acquire _);
    [|split; [left; split; [reflexivity | discriminate] | reflexivity]].
  destruct (execute _ _ _); cbn [result world trace locals committed afterClient].
  - split; [right | discriminate].
    exists pi, (Knex.id (clientFor pi host port w)), true. now repeat split.
  - split; [right | reflexivity].
    exists pi, (Knex.id (clientFor pi host port w)), false.
    repeat split; discriminate.
Qed.

(** X7: with a relay identifier configured, every entry point asks the
    gateway service for the relay first; when that lookup fails the call
    fails with the gateway's error having done nothing else: no tunnel, no
    client, no rendering.  [create] has drawn its credentials by then. *)
Theorem relay_lookup_failure_stops_the_call (inputs : Raw) (pi : Inputs.t)
    (entityId : string) (expireAt : Z) (l : bool) (w : World Backend) :
  validation inputs = Ok pi ->
  Js.truthy (Inputs.projectGatewayId pi) = true ->
  fnGetGatewayClientTls (Inputs.projectGatewayId pi) = None ->
  validateConnection inputs l w
  = mkRun (Err GatewayError) false w [EvRelayLookup (Inputs.projectGatewayId pi)]
  /\ create inputs expireAt tt w
     = mkRun (Err GatewayError) tt (afterDraws pi w)
             [EvRelayLookup (Inputs.projectGatewayId pi)]
  /\ revoke inputs entityId tt w
     = mkRun (Err GatewayError) tt w [EvRelayLookup (Inputs.projectGatewayId pi)]
  /\ renew inputs entityId expireAt tt w
     = if Js.truthy (Inputs.renewStatement pi)
       then mkRun (Err GatewayError) tt w [EvRelayLookup (Inputs.projectGatewayId pi)]
       else mkRun (Ok {| entityId := entityId |}) tt w [].
Proof.
  intros V Hg Hl.
  rewrite validateConnection_run, create_run, revoke_run, renew_run, V.
  cbv zeta. rewrite !route_run, Hg, Hl.
  repeat split.
Qed.

(** ** From [create] to [revoke] *)

Lemma create_context_username (username password expiration database : string) :
  create_context username password expiration database !! "username" = Some username.
Proof. unfold create_context. apply lookup_insert_eq. Qed.

Lemma revoke_context_username (username database : string) :
  revoke_context username database !! "username" = Some username.
Proof. unfold revoke_context. apply lookup_insert_eq. Qed.

Lemma renew_context_username (username expiration database : string) :
  renew_context username expiration database !! "username" = Some username.
Proof. unfold renew_context. apply lookup_insert_eq. Qed.

(** X8: when [create] returns a lease, its entity identifier is the
    username of its data, and the creation template was rendered with that
    username and the lease's password; any later [revoke] or [renew]
    on that entity identifier renders its template with the same
    username. *)
Theorem lease_names_the_created_user
    (inputs : Raw) (expireAt : Z) (w : World Backend) (lease : Lease) :
  result (create inputs expireAt tt w) = Ok lease ->
  DB_USERNAME (data lease) = lease_entityId lease
  /\ (exists pi context,
        validation inputs = Ok pi
        /\ In (EvRender (Inputs.creationStatement pi) {| noEscape := true |} context)
              (trace (create inputs expireAt tt w))
        /\ context !! "username" = Some (lease_entityId lease)
        /\ context !! "password" = Some (DB_PASSWORD (data lease)))
  /\ (forall w' expireAt',
        Forall (binds "username" (lease_entityId lease))
               (trace (revoke inputs (lease_entityId lease) tt w'))
        /\ Forall (binds "username" (lease_entityId lease))
                  (trace (renew inputs (lease_entityId lease) expireAt' tt w'))).
Proof.
  rewrite create_run.
  destruct (validation inputs) as [pi|e] eqn:V; [|discriminate].
  cbv zeta. cbn [result trace].
  destruct (route_outcomes pi
              (create_callback pi expireAt (issuedUsername pi w) (issuedPassword pi w))
              tt (afterDraws pi w))
    as [(-> & _) | (host & port & pre & post & _ & _ & -> & -> & _)]; [discriminate|].
  rewrite create_callback_run. cbv zeta.
  destruct (Js.toISOString expireAt) as [iso|]; [|discriminate].
  destruct (compile _ _ _) as [rendered|]; [|discriminate].
  cbn [result trace]. destruct (result _); [|discriminate].
  intros [= <-]. cbn [lease_entityId data DB_USERNAME DB_PASSWORD].
  split; [reflexivity|]. split.
  { exists pi, (create_context (issuedUsername pi w) (issuedPassword pi w) iso
                               (Inputs.database pi)).
    split; [reflexivity|]. split.
    - apply in_or_app. right. apply in_or_app. left. right. now left.
    - split; [apply create_context_username | apply create_context_password]. }
  intros w' expireAt'. rewrite revoke_run, renew_run, V. cbv zeta. cbn [trace]. split.
  - apply route_events; [intros []; easy|]. intros h p.
    apply revoke_callback_events; try exact I; try exact (fun _ => I).
    + intros []; easy.
    + apply revoke_context_username.
  - destruct (Js.truthy (Inputs.renewStatement pi)); [|constructor].
    apply route_events; [intros []; easy|]. intros h p.
    apply renew_callback_events; try exact I; try exact (fun _ => I).
    + intros []; easy.
    + intros iso'. apply renew_context_username.
Qed.

(** ** Templates that render to nothing *)

(** X9: when the renewal template renders to the empty text, [renew] makes
    its client and destroys it without asking for a connection: no
    acquisition, no transaction, the backend's committed state untouched;
    the call succeeds unless the gateway fails. *)
Theorem renew_with_empty_rendering (inputs : Raw) (pi : Inputs.t)
    (entityId expiration : string) (expireAt : Z) (w : World Backend) :
  validation inputs = Ok pi ->
  Js.truthy (Inputs.renewStatement pi) = true ->
  Js.toISOString expireAt = Some expiration ->
  compile (str (Inputs.renewStatement pi)) defaultCompileOptions
    (renew_context entityId expiration (Inputs.database pi)) = Some EmptyString ->
  List.filter protocol_event (trace (renew inputs entityId expireAt tt w)) = []
  /\ committed (world (renew inputs entityId expireAt tt w)) = committed w
  /\ (result (renew inputs entityId expireAt tt w) = Ok {| entityId := entityId |}
      /\ (exists db, List.filter session_event (trace (renew inputs entityId expireAt tt w))
                     = [EvClient db; EvDestroy (Knex.id db)])
      \/ result (renew inputs entityId expireAt tt w) = Err GatewayError).
Proof.
  intros V Hr Hiso Hc. rewrite renew_run, V, Hr. cbv zeta. cbn [result world trace].
  destruct (route_outcomes pi (renew_callback pi entityId expireAt) tt w)
    as [(-> & _ & -> & Ht) | (host & port & pre & post & Hpre & Hpost & -> & -> & _ & ->)].
  { repeat split; [|now right]. apply filter_gateway; [now intros [] | exact Ht]. }
  rewrite !List.filter_app.
  rewrite (filter_gateway protocol_event pre), (filter_gateway protocol_event post),
    (filter_gateway session_event pre), (filter_gateway session_event post)
    by (assumption || now intros []).
  rewrite renew_callback_run, Hiso. cbv zeta. rewrite Hc.
  cbn. split; [reflexivity | split; [reflexivity|]].
  left. split; [reflexivity|]. now exists (clientFor pi host port w).
Qed.

(** X10: when the creation template renders to no statement (the empty
    text, or nothing but semicolons) and the backend can be reached,
    [create] commits an empty transaction and returns its lease all the
    same: the credentials it hands out exist nowhere on the backend. *)
Theorem create_without_statements (inputs : Raw) (pi : Inputs.t)
    (expiration rendered : string) (expireAt : Z) (w : World Backend) :
  validation inputs = Ok pi ->
  Js.toISOString expireAt = Some expiration ->
  compile (Inputs.creationStatement pi) {| noEscape := true |}
    (create_context (issuedUsername pi w) (issuedPassword pi w) expiration
                    (Inputs.database pi)) = Some rendered ->
  statements rendered = [] ->
  (forall config, acquire config = true) ->
  committed (world (create inputs expireAt tt w)) = committed w
  /\ (result (create inputs expireAt tt w) = Err GatewayError
      \/ result (create inputs expireAt tt w)
         = Ok {| lease_entityId := issuedUsername pi w;
                 data := {| DB_USERNAME := issuedUsername pi w;
                            DB_PASSWORD := issuedPassword pi w |} |}
         /\ exists id,
              List.filter statement_event (trace (create inputs expireAt tt w))
              = [EvBegin id; EvCommit id]).
Proof.
  intros V Hiso Hc Hs Ha. rewrite create_run, V. cbv zeta. cbn [result world trace].
  destruct (route_statement_events pi
              (create_callback pi expireAt (issuedUsername pi w) (issuedPassword pi w))
              tt (afterDraws pi w))
    as [(-> & -> & ->) | (host & port & -> & -> & _ & ->)]; [split; [reflexivity | now left]|].
  rewrite create_callback_run, Hiso. cbv zeta. rewrite Hc, Hs, transaction_run, Ha.
  cbn. split; [reflexivity|]. right. split; [reflexivity|]. eauto.
Qed.

(** ** An unreachable backend *)

(** X11: when no connection comes up, no entry point sends a statement or
    changes the backend's committed state; [create] returns no lease,
    [revoke] no receipt, [validateConnection] no answer, and [renew]
    succeeds only without having asked for a connection (no renewal
    template, or one that renders to the empty text). *)
Theorem unreachable_backend (inputs : Raw) (entityId : string) (expireAt : Z)
    (l : bool) (w : World Backend) :
  (forall config, acquire config = false) ->
  (List.filter statement_event (trace (create inputs expireAt tt w)) = []
   /\ committed (world (create inputs expireAt tt w)) = committed w
   /\ forall lease, result (create inputs expireAt tt w) <> Ok lease)
  /\ (List.filter statement_event (trace (revoke inputs entityId tt w)) = []
      /\ committed (world (revoke inputs entityId tt w)) = committed w
      /\ forall receipt, result (revoke inputs entityId tt w) <> Ok receipt)
  /\ (List.filter statement_event (trace (renew inputs entityId expireAt tt w)) = []
      /\ committed (world (renew inputs entityId expireAt tt w)) = committed w
      /\ forall receipt, result (renew inputs entityId expireAt tt w) = Ok receipt ->
           List.filter protocol_event (trace (renew inputs entityId expireAt tt w)) = [])
  /\ (List.filter statement_event (trace (validateConnection inputs l w)) = []
      /\ committed (world (validateConnection inputs l w)) = committed w
      /\ forall answer, result (validateConnection inputs l w) <> Ok answer).
Proof.
  intros Ha.
  rewrite create_run, revoke_run, renew_run, validateConnection_run.
  destruct (validation inputs) as [pi|e] eqn:V; [|now repeat split].
  cbv zeta. cbn [result world trace].
  split; [|split; [|split]].
  - destruct (route_statement_events pi
                (create_callback pi expireAt (issuedUsername pi w) (issuedPassword pi w))
                tt (afterDraws pi w))
      as [(-> & -> & ->) | (host & port & -> & -> & _ & ->)]; [now repeat split|].
    rewrite create_callback_run. cbv zeta.
    destruct (Js.toISOString expireAt); [|now repeat split].
    destruct (compile _ _ _); [|now repeat split].
    rewrite transaction_run, Ha. now repeat split.
  - destruct (route_statement_events pi
                (revoke_callback pi entityId (Inputs.database pi)) tt w)
      as [(-> & -> & ->) | (host & port & -> & -> & _ & ->)]; [now repeat split|].
    rewrite revoke_callback_run. cbv zeta.
    destruct (compile _ _ _); [|now repeat split].
    rewrite transaction_run, Ha. now repeat split.
  - destruct (Js.truthy (Inputs.renewStatement pi)); [|now repeat split].
    cbn [result world trace].
    destruct (route_outcomes pi (renew_callback pi entityId expireAt) tt w)
      as [(-> & _ & -> & Ht) | (host & port & pre & post & Hpre & Hpost & -> & -> & _ & ->)].
    { repeat split; [|discriminate]. apply filter_gateway; [now intros [] | exact Ht]. }
    rewrite !List.filter_app.
    rewrite (filter_gateway protocol_event pre), (filter_gateway protocol_event post),
      (filter_gateway statement_event pre), (filter_gateway statement_event post)
      by (assumption || now intros []).
    rewrite renew_callback_run. cbv zeta.
    destruct (Js.toISOString expireAt); [|now repeat split].
    destruct (compile _ _ _); [|now repeat split].
    destruct (Js.nonempty _); [|now repeat split].
    rewrite transaction_run, Ha. now repeat split.
  - destruct (route_statement_events pi (validateConnection_callback pi) false w)
      as [(-> & -> & ->) | (host & port & -> & -> & _ & ->)]; [now repeat split|].
    rewrite validateConnection_callback_run. cbv zeta. rewrite Ha. now repeat split.
Qed.

(** ** One client per call *)

Lemma transaction_client {L} (db : Knex.Client) (queries : list string)
    (l : L) (w : World Backend) :
  Forall (fun e => event_client e = Some (Knex.id db))
    (trace (transaction db (fun tx => forEach queries (fun query => tx_raw tx query)) l w)).
Proof.
  rewrite transaction_run.
  destruct (acquire _); [|repeat constructor].
  destruct (batch _ _ _) as [[applied [q|]] final]; cbn [trace];
    repeat apply Forall_cons_2; try reflexivity;
    apply Forall_app_2; repeat constructor;
    apply Forall_map, Forall_forall; reflexivity.
Qed.

Lemma filter_keeps (f : Event -> bool) (t : list Event) :
  Forall (fun e => f e = true) t -> List.filter f t = t.
Proof. induction 1 as [|e t He _ IH]; simpl; [reflexivity|]. now rewrite He, IH. Qed.

Lemma client_events_are_backend_events (id : nat) (t : list Event) :
  Forall (fun e => event_client e = Some id) t ->
  Forall (fun e => backend_event e = true) t.
Proof. intros Ht. eapply Forall_impl; [exact Ht|]. now intros []. Qed.

(** The backend events of a call whose callback makes its client, renders,
    runs one transaction and destroys the client. *)
Lemma lease_backend_events (db : Knex.Client) (rendering : Event)
    (queries : list string) (w : World Backend) :
  backend_event rendering = false ->
  exists middle,
    List.filter backend_event
      (EvClient db :: rendering
       :: trace (transaction db
                   (fun tx => forEach queries (fun query => tx_raw tx query)) tt w)
       ++ [EvDestroy (Knex.id db)])
    = EvClient db :: middle ++ [EvDestroy (Knex.id db)]
    /\ Forall (fun e => event_client e = Some (Knex.id db)) middle.
Proof.
  intros Hr.
  exists (trace (transaction db
                   (fun tx => forEach queries (fun query => tx_raw tx query)) tt w)).
  split; [|apply transaction_client].
  cbn [List.filter backend_event]. rewrite Hr, List.filter_app.
  rewrite (filter_keeps backend_event)
    by (eapply client_events_are_backend_events, transaction_client).
  reflexivity.
Qed.

(** X12: a [create] or [revoke] call that gets to the backend makes exactly
    one client, before anything else it does there, and destroys it after
    everything else, whatever the outcome; the acquisition and every
    statement in between go through that client. *)
Theorem lease_calls_use_one_client
    (inputs : Raw) (entityId : string) (expireAt : Z) (w : World Backend) :
  (List.filter backend_event (trace (create inputs expireAt tt w)) = []
   \/ exists db middle,
        List.filter backend_event (trace (create inputs expireAt tt w))
        = EvClient db :: middle ++ [EvDestroy (Knex.id db)]
        /\ Knex.id db = nextClient w
        /\ Forall (fun e => event_client e = Some (Knex.id db)) middle)
  /\ (List.filter backend_event (trace (revoke inputs entityId tt w)) = []
      \/ exists db middle,
           List.filter backend_event (trace (revoke inputs entityId tt w))
           = EvClient db :: middle ++ [EvDestroy (Knex.id db)]
           /\ Knex.id db = nextClient w
           /\ Forall (fun e => event_client e = Some (Knex.id db)) middle).
Proof.
  rewrite create_run, revoke_run.
  destruct (validation inputs) as [pi|e]; [|split; now left].
  cbv zeta. cbn [trace]. split.
  - destruct (route_outcomes pi
                (create_callback pi expireAt (issuedUsername pi w) (issuedPassword pi w))
                tt (afterDraws pi w))
      as [(_ & _ & _ & Ht) | (host & port & pre & post & Hpre & Hpost & -> & _)].
    { left. apply filter_gateway; [now intros [] | exact Ht]. }
    right. rewrite !List.filter_app.
    rewrite (filter_gateway backend_event pre), (filter_gateway backend_event post),
      app_nil_r by (assumption || now intros []).
    cbn [app]. rewrite create_callback_run. cbv zeta.
    destruct (Js.toISOString expireAt) as [iso|];
      [|exists (clientFor pi host port (afterDraws pi w)), []; now repeat split].
    destruct (compile _ _ _) as [rendered|];
      [|exists (clientFor pi host port (afterDraws pi w)), []; now repeat split].
    cbn [trace].
    destruct (lease_backend_events (clientFor pi host port (afterDraws pi w))
                (EvRender (Inputs.creationStatement pi) {| noEscape := true |}
                   (create_context (issuedUsername pi w) (issuedPassword pi w) iso
                      (Inputs.database pi)))
                (statements rendered) (afterClient (afterDraws pi w)) eq_refl)
      as (middle & Hm & Hc).
    exists (clientFor pi host port (afterDraws pi w)), middle. now repeat split.
  - destruct (route_outcomes pi (revoke_callback pi entityId (Inputs.database pi)) tt w)
      as [(_ & _ & _ & Ht) | (host & port & pre & post & Hpre & Hpost & -> & _)].
    { left. apply filter_gateway; [now intros [] | exact Ht]. }
    right. rewrite !List.filter_app.
    rewrite (filter_gateway backend_event pre), (filter_gateway backend_event post),
      app_nil_r by (assumption || now intros []).
    cbn [app]. rewrite revoke_callback_run. cbv zeta.
    destruct (compile _ _ _) as [rendered|];
      [|exists (clientFor pi host port w), []; now repeat split].
    cbn [trace].
    destruct (lease_backend_events (clientFor pi host port w)
                (EvRender (Inputs.revocationStatement pi) defaultCompileOptions
                   (revoke_context entityId (Inputs.database pi)))
                (statements rendered) (afterClient w) eq_refl)
      as (middle & Hm & Hc).
    exists (clientFor pi host port w), middle. now repeat split.
Qed.

(** ** The relay's address *)

(** X13: the tunnel is told the configured host and port as its target,
    and the relay's address cut at its colons: the text before the first
    colon is the relay host and the text up to the second colon, or to the
    end, is what [Number] turns into the relay port; what follows a second
    colon is ignored, and an address without colon leaves [Number] with
    [undefined]. *)
Theorem relay_address_is_cut_at_its_colons
    (pi : Inputs.t) (relayDetails : Gateway.RelayDetails) :
  Gateway.targetHost (gatewayOptions pi relayDetails) = Inputs.host pi
  /\ Gateway.targetPort (gatewayOptions pi relayDetails) = Inputs.port pi
  /\ (forall host port,
        Gateway.relayAddress relayDetails = host +:+ String ":" port ->
        Js.mem_char ":" host = false ->
        Js.mem_char ":" port = false ->
        Gateway.relayHost (gatewayOptions pi relayDetails) = host
        /\ Gateway.relayPort (gatewayOptions pi relayDetails) = Number (Some port))
  /\ (forall host port more,
        Gateway.relayAddress relayDetails
        = host +:+ String ":" (port +:+ String ":" more) ->
        Js.mem_char ":" host = false ->
        Js.mem_char ":" port = false ->
        Gateway.relayHost (gatewayOptions pi relayDetails) = host
        /\ Gateway.relayPort (gatewayOptions pi relayDetails) = Number (Some port))
  /\ (Js.mem_char ":" (Gateway.relayAddress relayDetails) = false ->
      Gateway.relayHost (gatewayOptions pi relayDetails)
      = Gateway.relayAddress relayDetails
      /\ Gateway.relayPort (gatewayOptions pi relayDetails) = Number None).
Proof.
  unfold gatewayOptions. cbn [Gateway.targetHost Gateway.targetPort
                              Gateway.relayHost Gateway.relayPort].
  split; [reflexivity|]. split; [reflexivity|]. unfold Js.split. split; [|split].
  - intros host port -> Hh Hp.
    rewrite split_aux_at_separator, split_aux_no_separator by assumption.
    split; reflexivity.
  - intros host port more -> Hh Hp.
    rewrite !split_aux_at_separator by assumption.
    split; reflexivity.
  - intros Hno. rewrite split_aux_no_separator by assumption.
    split; reflexivity.
Qed.

End Lifecycle.

(** * The secret-version store *)

Section StoreProperties.
Context {Doc Cause : Type}.
Variable secretId : Doc -> option string.
Variable latestVersions :
  SecretVersionDAL.Executor -> SecretVersionDAL.Executor -> string -> list string
  -> Cause + list Doc.

Lemma fold_insert_lookup (docs : list Doc) (start : gmap string Doc) (k : string) :
  fold_left (fun prev curr => <[SecretVersionDAL.key secretId curr := curr]> prev) docs start !! k
  = match last (List.filter (fun d => String.eqb (SecretVersionDAL.key secretId d) k) docs) with
    | Some d => Some d
    | None => start !! k
    end.
Proof.
  revert start. induction docs as [|d docs IH]; intros start; [reflexivity|].
  cbn [fold_left List.filter]. rewrite IH.
  destruct (String.eqb_spec (SecretVersionDAL.key secretId d) k) as [->|Hne].
  - rewrite last_cons. destruct (last _); [reflexivity | apply lookup_insert_eq].
  - destruct (last _); [reflexivity | now apply lookup_insert_ne].
Qed.

(** X14: in the record [findLatestVersionMany] builds from the rows of its
    query, a key holds the last row with that key, and no row at all when
    none has it; a row without [secretId] (null, or the empty text) goes
    under the empty key; and when the keys of the rows are pairwise
    different, every row is found under its own key. *)
Theorem rows_are_keyed_by_secret (docs : list Doc) :
  (forall k,
     SecretVersionDAL.byKey secretId docs !! k = last (List.filter (fun d => String.eqb (SecretVersionDAL.key secretId d) k) docs))
  /\ (forall d, Js.truthy (secretId d) = false -> SecretVersionDAL.key secretId d = EmptyString)
  /\ (forall d s, secretId d = Some s -> s <> EmptyString -> SecretVersionDAL.key secretId d = s)
  /\ (NoDup (SecretVersionDAL.key secretId <$> docs) -> forall d, d ∈ docs -> SecretVersionDAL.byKey secretId docs !! SecretVersionDAL.key secretId d = Some d).
Proof.
  assert (Hlook : forall k,
    SecretVersionDAL.byKey secretId docs !! k = last (List.filter (fun d => String.eqb (SecretVersionDAL.key secretId d) k) docs)).
  { intros k. unfold SecretVersionDAL.byKey. rewrite fold_insert_lookup.
    destruct (last _); [reflexivity | apply lookup_empty]. }
  split; [exact Hlook|]. split; [|split].
  - intros d Hd. unfold SecretVersionDAL.key. now rewrite Hd.
  - intros d s Hs Hne. unfold SecretVersionDAL.key. rewrite Hs. cbn.
    destruct (String.eqb_spec s EmptyString); [contradiction | reflexivity].
  - intros Hnd d Hd. rewrite Hlook. clear Hlook.
    induction docs as [|d' rest IH]; [inversion Hd|].
    apply NoDup_cons in Hnd as [Hfresh Hnd]. cbn [List.filter].
    apply elem_of_cons in Hd as [->|Hd].
    + rewrite String.eqb_refl.
      assert (Hnone : List.filter (fun d0 => String.eqb (SecretVersionDAL.key secretId d0) (SecretVersionDAL.key secretId d')) rest = []).
      { clear -Hfresh. induction rest as [|x rest IH]; [reflexivity|].
        cbn [List.filter]. cbn [fmap list_fmap] in Hfresh.
        apply not_elem_of_cons in Hfresh as [Hx Hrest].
        destruct (String.eqb_spec (SecretVersionDAL.key secretId x) (SecretVersionDAL.key secretId d')); [congruence | now apply IH]. }
      now rewrite Hnone.
    + destruct (String.eqb_spec (SecretVersionDAL.key secretId d') (SecretVersionDAL.key secretId d)) as [Heq|Hne].
      * exfalso. apply Hfresh. rewrite Heq. now apply list_elem_of_fmap_2.
      * now apply IH.
Qed.

(** X15: asked about no secret at all, [findLatestVersionMany] returns the
    empty record without running its query, whatever the database would
    have done; asked about some, it runs the query on the caller's
    transaction when there is one, on the read replica (sub-select on the
    primary) when there is none, and whatever the query throws comes back
    as a [DatabaseError] named [FindLatestVersinMany] that carries it. *)
Theorem findLatestVersionMany_outcomes
    (folderId : string) (secretIds : list string) (tx : option nat) :
  (secretIds = [] ->
   SecretVersionDAL.findLatestVersionMany secretId latestVersions
     folderId secretIds tx = inr ∅)
  /\ (secretIds <> [] ->
      SecretVersionDAL.findLatestVersionMany secretId latestVersions
        folderId secretIds tx
      = match
          match tx with
          | Some t =>
              latestVersions (SecretVersionDAL.Transaction t)
                             (SecretVersionDAL.Transaction t) folderId secretIds
          | None =>
              latestVersions SecretVersionDAL.ReplicaNode SecretVersionDAL.Primary
                             folderId secretIds
          end
        with
        | inr docs => inr (SecretVersionDAL.byKey secretId docs)
        | inl error => inl (SecretVersionDAL.DatabaseError "FindLatestVersinMany" error)
        end)
  /\ (forall failure,
        SecretVersionDAL.findLatestVersionMany secretId latestVersions
          folderId secretIds tx = inl failure ->
        secretIds <> []
        /\ exists error,
             failure = SecretVersionDAL.DatabaseError "FindLatestVersinMany" error).
Proof.
  unfold SecretVersionDAL.findLatestVersionMany. split; [|split].
  - now intros ->.
  - intros Hne. destruct secretIds; [contradiction|]. cbn [length Nat.eqb].
    destruct tx; reflexivity.
  - intros failure. destruct secretIds as [|s rest]; [discriminate|].
    cbn [length Nat.eqb]. destruct (latestVersions _ _ _ _); [|discriminate].
    intros [= <-]. split; [discriminate | eauto].
Qed.

End StoreProperties.

(** * The further properties at work in the small world *)

Lemma revoke_rolls_back_refused_drop :
  result (revoke (H := Cases.refusing_drop) Toy.direct "alice" tt Toy.start)
  = Err (ExecutionError "DROP USER alice")
  /\ committed (world (revoke (H := Cases.refusing_drop) Toy.direct "alice" tt Toy.start))
     = committed Toy.start.
Proof.
  split; [vm_compute; reflexivity|].
  apply (proj1 (proj2 (revoke_runs_one_atomic_transaction
                  (H := Cases.refusing_drop) Toy.direct "alice" Toy.start))
               (ExecutionError "DROP USER alice")).
  vm_compute; reflexivity.
Defined.

Lemma renew_rolls_back_refused_alter :
  result (renew (H := Cases.refusing_alter) Toy.renewable "alice" 1700000000000 tt
                Toy.start)
  = Err (ExecutionError "ALTER USER alice VALID UNTIL '2023-11-14T22:13:20.000Z'")
  /\ committed (world (renew (H := Cases.refusing_alter) Toy.renewable "alice"
                             1700000000000 tt Toy.start))
     = committed Toy.start.
Proof.
  split; [vm_compute; reflexivity|].
  apply (proj1 (proj2 (renew_runs_one_atomic_transaction
                  (H := Cases.refusing_alter) Toy.renewable "alice" 1700000000000
                  Toy.start))
               (ExecutionError "ALTER USER alice VALID UNTIL '2023-11-14T22:13:20.000Z'")).
  vm_compute; reflexivity.
Defined.

Lemma refused_probe_changes_nothing :
  committed (world (validateConnection (H := Toy.refusing_probe) Toy.direct false
                                       Toy.start))
  = committed Toy.start.
Proof.
  apply (proj2 (validateConnection_sends_only_the_probe
                  (H := Toy.refusing_probe) Toy.direct false Toy.start)
               (ExecutionError "SELECT 1")).
  vm_compute; reflexivity.
Defined.

Lemma unknown_relay_stops_create :
  create (H := Toy.healthy) Cases.unknown_relay 1700000000000 tt Toy.start
  = mkRun (Err GatewayError) tt
          (afterDraws (Toy.inputs "10.0.0.5" (Some "gw-2") None) Toy.start)
          [EvRelayLookup (Some "gw-2")].
Proof.
  apply (relay_lookup_failure_stops_the_call (H := Toy.healthy) Cases.unknown_relay
           (Toy.inputs "10.0.0.5" (Some "gw-2") None) "alice" 1700000000000 false
           Toy.start).
  - vm_compute; reflexivity.
  - reflexivity.
  - reflexivity.
Defined.

Lemma healthy_lease_names_its_user :
  DB_USERNAME (data {| lease_entityId := "3ahovCJQX4bipwDKRY5cjqxELSZ6dkry";
                       data := {| DB_USERNAME := "3ahovCJQX4bipwDKRY5cjqxELSZ6dkry";
                                  DB_PASSWORD :=
                                    "xELSZ6~elszGNU18*gnuBIPW3-bipwDKRY5.dkryFMT07!fm" |} |})
  = "3ahovCJQX4bipwDKRY5cjqxELSZ6dkry".
Proof.
  apply (lease_names_the_created_user (H := Toy.healthy) Toy.direct 1700000000000
           Toy.start).
  vm_compute; reflexivity.
Defined.

Lemma silent_renewal_asks_for_no_connection :
  List.filter protocol_event
    (trace (renew (H := Toy.healthy) (Some Cases.silent_renewal) "alice" 1700000000000
                  tt Toy.start))
  = [].
Proof.
  apply (renew_with_empty_rendering (H := Toy.healthy) (Some Cases.silent_renewal)
           Cases.silent_renewal "alice" "2023-11-14T22:13:20.000Z" 1700000000000
           Toy.start).
  - vm_compute; reflexivity.
  - reflexivity.
  - vm_compute; reflexivity.
  - vm_compute; reflexivity.
Defined.

Lemma lease_for_nothing :
  committed (world (create (H := Toy.healthy) (Some Cases.no_statement) 1700000000000
                           tt Toy.start))
  = committed Toy.start.
Proof.
  apply (create_without_statements (H := Toy.healthy) (Some Cases.no_statement)
           Cases.no_statement "2023-11-14T22:13:20.000Z" ";" 1700000000000 Toy.start).
  - vm_compute; reflexivity.
  - vm_compute; reflexivity.
  - vm_compute; reflexivity.
  - vm_compute; reflexivity.
  - reflexivity.
Defined.

Lemma unreachable_backend_at_work :
  List.filter statement_event
    (trace (create (H := Cases.unreachable) Toy.direct 1700000000000 tt Toy.start))
  = [].
Proof.
  apply (unreachable_backend (H := Cases.unreachable) Toy.direct "alice" 1700000000000
           false Toy.start).
  reflexivity.
Defined.

Lemma toy_relay_address :
  Gateway.relayHost (gatewayOptions (H := Toy.healthy)
                       (Toy.inputs "10.0.0.5" (Some "gw-1") None) Toy.relay)
  = "relay.example.com"
  /\ Gateway.relayPort (gatewayOptions (H := Toy.healthy)
                          (Toy.inputs "10.0.0.5" (Some "gw-1") None) Toy.relay)
     = Some 8443.
Proof.
  apply (proj1 (proj2 (proj2 (relay_address_is_cut_at_its_colons (H := Toy.healthy)
           (Toy.inputs "10.0.0.5" (Some "gw-1") None) Toy.relay)))
           "relay.example.com" "8443" eq_refl eq_refl eq_refl).
Defined.

Lemma rows_at_work :
  SecretVersionDAL.byKey fst Cases.rows !! "api-key" = Some (Some "api-key", 7)
  /\ SecretVersionDAL.byKey fst Cases.rows !! EmptyString = Some (None, 1).
Proof.
  assert (Hnd : NoDup (SecretVersionDAL.key fst <$> Cases.rows))
    by (cbn; repeat constructor; set_unfold; intuition discriminate).
  split.
  - exact (proj2 (proj2 (proj2 (rows_are_keyed_by_secret fst Cases.rows))) Hnd
             (Some "api-key", 7) ltac:(set_unfold; tauto)).
  - exact (proj2 (proj2 (proj2 (rows_are_keyed_by_secret fst Cases.rows))) Hnd
             (None, 1) ltac:(set_unfold; tauto)).
Defined.

Lemma store_at_work :
  SecretVersionDAL.findLatestVersionMany fst Cases.down "folder-1" [] None = inr ∅
  /\ SecretVersionDAL.findLatestVersionMany fst Cases.down "folder-1" ["api-key"] None
     = inl (SecretVersionDAL.DatabaseError "FindLatestVersinMany" "connection refused").
Proof.
  split.
  - apply (proj1 (findLatestVersionMany_outcomes fst Cases.down "folder-1" [] None)).
    reflexivity.
  - apply (proj1 (proj2 (findLatestVersionMany_outcomes fst Cases.down "folder-1"
                           ["api-key"] None))).
    discriminate.
Defined.
